(** * glance: internal/feed/reddit.go

    A shallow embedding of the Reddit feed source of glance
    ([internal/feed/reddit.go]) and the proofs of its specification.

    Go strings are byte sequences and are modelled by [string] (a list of
    [ascii], one per byte).  Go's [int] and [int64] are modelled by [Z], with
    the 64-bit wrap-around written out where the code does arithmetic on
    them.  The Go standard library functions the file calls are modelled in
    the modules [strings], [url] and [time] below; the services that live
    outside the file (the HTTP transport, the JSON decoder, the HTML entity
    table) are parameters of the section [Reddit]. *)

From Stdlib Require Import ZArith List Bool Ascii String SpecFloat Lia.
Import ListNotations.

Local Open Scope list_scope.
Local Open Scope string_scope.

(** ** Go's [strings] package *)

Module strings.

(** [strings.HasPrefix(s, prefix)]. *)
Fixpoint HasPrefix (s prefix : string) : bool :=
  match prefix, s with
  | EmptyString, _ => true
  | String _ _, EmptyString => false
  | String p prefix', String c s' => Ascii.eqb c p && HasPrefix s' prefix'
  end.

(** The scan of [strings.Replace(s, old, new, -1)] for a non-empty [old]:
    matches are taken left to right and do not overlap.  [skip] counts the
    bytes of the match being consumed, which the scan steps over. *)
Fixpoint replaceFrom (skip : nat) (s old new : string) : string :=
  match s with
  | EmptyString => EmptyString
  | String c s' =>
      match skip with
      | S k => replaceFrom k s' old new
      | O =>
          if HasPrefix s old
          then new ++ replaceFrom (String.length old - 1) s' old new
          else String c (replaceFrom 0 s' old new)
      end
  end.

(** [strings.ReplaceAll(s, old, new)].  reddit.go only passes the literal,
    non-empty placeholders [{SUBREDDIT}], [{POST-ID}], [{POST-PATH}] and
    [{REQUEST-URL}] as [old]; for an empty [old] Go inserts [new] around
    every UTF-8 sequence, a case that is left out here ([s] is returned). *)
Definition ReplaceAll (s old new : string) : string :=
  match old with
  | EmptyString => s
  | String _ _ => replaceFrom 0 s old new
  end.

(** Membership of a byte in an ASCII cutset. *)
Fixpoint containsByte (cutset : string) (c : ascii) : bool :=
  match cutset with
  | EmptyString => false
  | String d cutset' => Ascii.eqb c d || containsByte cutset' c
  end.

(** [strings.TrimLeft(s, cutset)] for a cutset of ASCII bytes (reddit.go
    passes ["/"]): the leading bytes that belong to the cutset are
    dropped. *)
Fixpoint TrimLeft (s cutset : string) : string :=
  match s with
  | EmptyString => EmptyString
  | String c s' => if containsByte cutset c then TrimLeft s' cutset else s
  end.

End strings.

(** ** Go's [net/url] package: query values *)

Module url.

Local Open Scope N_scope.

(** [shouldEscape(c, encodeQueryComponent)]: everything is escaped except
    the unreserved characters of RFC 3986 (letters, digits, [-_.~]). *)
Definition shouldEscape (c : ascii) : bool :=
  let n := N_of_ascii c in
  if ((97 <=? n) && (n <=? 122)) || ((65 <=? n) && (n <=? 90))
     || ((48 <=? n) && (n <=? 57))
  then false
  else if (n =? 45) || (n =? 95) || (n =? 46) || (n =? 126)
  then false
  else true.

(** The table ["0123456789ABCDEF"] of [net/url]. *)
Definition upperhex (n : N) : ascii :=
  if n <? 10 then ascii_of_N (48 + n) else ascii_of_N (55 + n).

(** [url.QueryEscape(s)]: a space becomes [+], every other escaped byte
    becomes [%XX]. *)
Fixpoint QueryEscape (s : string) : string :=
  match s with
  | EmptyString => EmptyString
  | String c s' =>
      if shouldEscape c then
        if N_of_ascii c =? 32 then String "+" (QueryEscape s')
        else
          String "%"
            (String (upperhex (N.shiftr (N_of_ascii c) 4))
               (String (upperhex (N.land (N_of_ascii c) 15))
                  (QueryEscape s')))
      else String c (QueryEscape s')
  end.

Local Close Scope N_scope.

(** [url.Values] is [map[string][]string]; the entries are kept in an
    association list with at most one entry per key. *)
Definition Values : Type := list (string * list string).

(** [v.Set(key, value)]: [v[key] = []string{value}]. *)
Fixpoint Set_ (v : Values) (key value : string) : Values :=
  match v with
  | [] => [(key, [value])]
  | (k, vs) :: v' =>
      if String.eqb k key then (key, [value]) :: v'
      else (k, vs) :: Set_ v' key value
  end.

(** [v[key]], the empty slice when the key is absent. *)
Fixpoint lookup (v : Values) (key : string) : list string :=
  match v with
  | [] => []
  | (k, vs) :: v' => if String.eqb k key then vs else lookup v' key
  end.

(** [v.Get(key)]: the first value of the key, or [""]. *)
Definition Get (v : Values) (key : string) : string :=
  match lookup v key with
  | [] => ""
  | x :: _ => x
  end.

(** [v.Has(key)]. *)
Fixpoint Has (v : Values) (key : string) : bool :=
  match v with
  | [] => false
  | (k, _) :: v' => String.eqb k key || Has v' key
  end.

(** [slices.Sort(keys)], as an insertion sort on the byte-wise order of
    strings. *)
Fixpoint insertKey (k : string) (keys : list string) : list string :=
  match keys with
  | [] => [k]
  | k' :: keys' =>
      if String.leb k k' then k :: keys else k' :: insertKey k keys'
  end.

Fixpoint sortKeys (keys : list string) : list string :=
  match keys with
  | [] => []
  | k :: keys' => insertKey k (sortKeys keys')
  end.

(** The inner loop of [Encode]: one [key=value] pair per value, separated
    by [&] once the buffer is not empty. *)
Fixpoint encodeValues (buf keyEscaped : string) (vs : list string) : string :=
  match vs with
  | [] => buf
  | x :: vs' =>
      let buf := if Nat.ltb 0 (String.length buf) then buf ++ "&" else buf in
      encodeValues (buf ++ keyEscaped ++ "=" ++ QueryEscape x) keyEscaped vs'
  end.

Fixpoint encodeKeys (buf : string) (v : Values) (keys : list string) : string :=
  match keys with
  | [] => buf
  | k :: keys' =>
      encodeKeys (encodeValues buf (QueryEscape k) (lookup v k)) v keys'
  end.

(** [v.Encode()]: the "URL encoded" form ("bar=baz&foo=quux") sorted by
    key. *)
Definition Encode (v : Values) : string :=
  encodeKeys "" v (sortKeys (map fst v)).

End url.

(** ** Go's [time] package *)

Module time.

Local Open Scope Z_scope.

(** A [time.Time] is an instant, counted in nanoseconds from the zero
    instant (January 1, year 1, 00:00:00 UTC), the zero value of the
    type.  The monotonic clock reading a [Time] may carry is not
    modelled: instants are compared on one time line. *)
Definition Time : Type := Z.

(** A [time.Duration] is an [int64] count of nanoseconds. *)
Definition Duration : Type := Z.

(** Two's complement wrap-around of a 64-bit signed integer. *)
Definition int64 (z : Z) : Z := (z + 2 ^ 63) mod 2 ^ 64 - 2 ^ 63.

Definition zero : Time := 0.

(** [time.Second]. *)
Definition Second : Duration := 1000000000.

(** [t.IsZero()]. *)
Definition IsZero (t : Time) : bool := t =? zero.

(** [t.After(u)]. *)
Definition After (t u : Time) : bool := u <? t.

(** [t.Add(d)]. *)
Definition Add (t : Time) (d : Duration) : Time := t + d.

(** [time.Duration(n) * time.Second] for a Go [int] [n] (64 bits wide on
    the amd64 and arm64 targets): the conversion to [int64], then an
    [int64] multiplication, which wraps around. *)
Definition seconds (n : Z) : Duration := int64 (int64 n * Second).

(** The instant of the Unix epoch (January 1, 1970 UTC). *)
Definition unixEpoch : Time := 62135596800 * Second.

(** [unixToInternal], the seconds from the zero instant to the Unix
    epoch. *)
Definition unixToInternal : Z := 62135596800.

(** [time.Unix(sec, 0)]: the seconds of the instant are the [int64] sum
    [sec + unixToInternal], which wraps around. *)
Definition Unix (sec : Z) : Time := int64 (sec + unixToInternal) * Second.

End time.


(** ** Go's [net/http] package: requests *)

Module http.

(** [http.Header] is [map[string][]string]; as for [url.Values], one entry
    per key.  The two keys reddit.go sets, [Authorization] and
    [User-Agent], are already in canonical form. *)
Definition Header : Type := list (string * list string).

(** [h.Set(key, value)]. *)
Definition Header_Set (h : Header) (key value : string) : Header :=
  url.Set_ h key value.

(** The fields of [http.Request] that reddit.go determines.  [Body] is
    [None] for the [nil] reader. *)
Record Request : Type := {
  Method : string;
  URL : string;
  Body : option string;
  Headers : Header
}.

End http.

(** ** The data of reddit.go *)

(** Go's [float64], for the [created] field of a post. *)
Definition float64 : Type := spec_float.

(** An element of [crosspost_parent_list]. *)
Module parentJson.
Record t : Type := {
  Id : string;
  Subreddit : string;
  Permalink : string
}.
End parentJson.

(** The [data] of an element of [children]. *)
Module postJson.
Record t : Type := {
  Id : string;
  Title : string;
  Upvotes : Z;
  Url : string;
  Time : float64;
  CommentsCount : Z;
  Domain : string;
  Permalink : string;
  Stickied : bool;
  Pinned : bool;
  IsSelf : bool;
  Thumbnail : string;
  Flair : string;
  ParentList : list parentJson.t
}.
End postJson.

(** An element of [children]. *)
Module childJson.
Record t : Type := { Data : postJson.t }.
End childJson.

(** [subredditResponseJson]; [Children r] stands for [r.Data.Children]. *)
Module subredditResponseJson.
Record t : Type := { Children : list childJson.t }.
End subredditResponseJson.

Module redditAccessTokenResponseJson.
Record t : Type := {
  AccessToken : string;
  ExpiresIn : Z;
  Scope : string;
  TokenType : string
}.
End redditAccessTokenResponseJson.

Module RedditOauth.
Record t : Type := {
  ClientId : string;
  ClientSecret : string;
  Username : string;
  Password : string;
  UserAgent : string;
  AccessToken : string;
  ExpiresAt : time.Time
}.
End RedditOauth.

(** Modelled from the spec: the declarations of [ForumPost] and
    [ForumPosts] are not in reddit.go; the record has the fields the file
    assigns, a string left unassigned holds Go's zero value [""] (the
    "unset" of the specification). *)
Module ForumPost.
Record t : Type := {
  Title : string;
  DiscussionUrl : string;
  TargetUrl : string;
  TargetUrlDomain : string;
  ThumbnailUrl : string;
  CommentCount : Z;
  Score : Z;
  TimePosted : time.Time;
  Tags : list string;
  IsCrosspost : bool
}.

(** The assignments [forumPost.F = v] of reddit.go. *)
Definition set_TargetUrl (p : t) (v : string) : t :=
  {| Title := Title p; DiscussionUrl := DiscussionUrl p; TargetUrl := v;
     TargetUrlDomain := TargetUrlDomain p; ThumbnailUrl := ThumbnailUrl p;
     CommentCount := CommentCount p; Score := Score p;
     TimePosted := TimePosted p; Tags := Tags p;
     IsCrosspost := IsCrosspost p |}.

Definition set_TargetUrlDomain (p : t) (v : string) : t :=
  {| Title := Title p; DiscussionUrl := DiscussionUrl p;
     TargetUrl := TargetUrl p; TargetUrlDomain := v;
     ThumbnailUrl := ThumbnailUrl p; CommentCount := CommentCount p;
     Score := Score p; TimePosted := TimePosted p; Tags := Tags p;
     IsCrosspost := IsCrosspost p |}.

Definition set_ThumbnailUrl (p : t) (v : string) : t :=
  {| Title := Title p; DiscussionUrl := DiscussionUrl p;
     TargetUrl := TargetUrl p; TargetUrlDomain := TargetUrlDomain p;
     ThumbnailUrl := v; CommentCount := CommentCount p; Score := Score p;
     TimePosted := TimePosted p; Tags := Tags p;
     IsCrosspost := IsCrosspost p |}.

Definition set_Tags (p : t) (v : list string) : t :=
  {| Title := Title p; DiscussionUrl := DiscussionUrl p;
     TargetUrl := TargetUrl p; TargetUrlDomain := TargetUrlDomain p;
     ThumbnailUrl := ThumbnailUrl p; CommentCount := CommentCount p;
     Score := Score p; TimePosted := TimePosted p; Tags := v;
     IsCrosspost := IsCrosspost p |}.

Definition set_IsCrosspost (p : t) (v : bool) : t :=
  {| Title := Title p; DiscussionUrl := DiscussionUrl p;
     TargetUrl := TargetUrl p; TargetUrlDomain := TargetUrlDomain p;
     ThumbnailUrl := ThumbnailUrl p; CommentCount := CommentCount p;
     Score := Score p; TimePosted := TimePosted p; Tags := Tags p;
     IsCrosspost := v |}.
End ForumPost.

Definition ForumPosts : Type := list ForumPost.t.

(** Go's [error] values as reddit.go sees them: the ones it creates itself
    with [errors.New] or [fmt.Errorf] (both yield an error with the given
    text), and the ones handed back by [http.NewRequest] and
    [decodeJsonFromRequest], which it returns as they are. *)
Inductive error : Type :=
| errors_New (text : string)
| serviceError (text : string).

(** The collaborators outside reddit.go.  [http_NewRequest_err method url]
    is the text of the error of [http.NewRequest], if any; the two
    instances of the generic [decodeJsonFromRequest] send the request
    through [defaultClient] and decode the body, or hand back the text of
    the transport or decoding error; [browserUserAgent] is the value of the
    browser-like [User-Agent] header. *)
Class Services : Type := {
  html_UnescapeString : string -> string;
  int64_of_float64 : float64 -> Z;
  base64_EncodeToString : string -> string;
  http_NewRequest_err : string -> string -> option string;
  decodeJsonFromRequest_token :
    http.Request -> string + redditAccessTokenResponseJson.t;
  decodeJsonFromRequest_listing :
    http.Request -> string + subredditResponseJson.t;
  browserUserAgent : string
}.

Section Reddit.

Context {svc : Services}.

(** [http.NewRequest(method, url, body)]. *)
Definition http_NewRequest (method url : string) (body : option string)
  : error + http.Request :=
  match http_NewRequest_err method url with
  | Some text => inl (serviceError text)
  | None =>
      inr {| http.Method := method; http.URL := url; http.Body := body;
             http.Headers := [] |}
  end.

(** [request.Header.Set(key, value)]. *)
Definition Request_Header_Set (r : http.Request) (key value : string)
  : http.Request :=
  {| http.Method := http.Method r; http.URL := http.URL r;
     http.Body := http.Body r;
     http.Headers := http.Header_Set (http.Headers r) key value |}.

(** Modelled from the spec: [addBrowserUserAgentHeader] is declared
    outside reddit.go; it sets a generic browser-like [User-Agent] header
    on the request. *)
Definition addBrowserUserAgentHeader (r : http.Request) : http.Request :=
  Request_Header_Set r "User-Agent" browserUserAgent.

(** [request.SetBasicAuth(username, password)]. *)
Definition SetBasicAuth (r : http.Request) (username password : string)
  : http.Request :=
  Request_Header_Set r "Authorization"
    ("Basic " ++ base64_EncodeToString (username ++ ":" ++ password)).

Definition ShouldAuthenticate (r : RedditOauth.t) : bool :=
  negb (RedditOauth.ClientId r =? "")
  && negb (RedditOauth.ClientSecret r =? "")
  && negb (RedditOauth.Username r =? "")
  && negb (RedditOauth.Password r =? "").

(** [now] is the reading of [time.Now()]. *)
Definition ShouldReauthenticate (now : time.Time) (r : RedditOauth.t) : bool :=
  if time.IsZero (RedditOauth.ExpiresAt r) then false
  else negb (time.After (RedditOauth.ExpiresAt r) now).

Definition templateRedditCommentsURL (template subreddit postId postPath : string)
  : string :=
  let template := strings.ReplaceAll template "{SUBREDDIT}" subreddit in
  let template := strings.ReplaceAll template "{POST-ID}" postId in
  let template :=
    strings.ReplaceAll template "{POST-PATH}" (strings.TrimLeft postPath "/") in
  template.

(** What a call of [TryAuthenticate] leaves behind: the error it returns
    ([None] for [nil]), the credential behind the pointer, and the requests
    it has sent. *)
Record AuthOutcome : Type := {
  auth_err : option error;
  auth_oauth : RedditOauth.t;
  auth_sent : list http.Request
}.

(** The two assignments at the end of [TryAuthenticate]. *)
Definition setToken (oauth : RedditOauth.t) (token : string) (expiresAt : time.Time)
  : RedditOauth.t :=
  {| RedditOauth.ClientId := RedditOauth.ClientId oauth;
     RedditOauth.ClientSecret := RedditOauth.ClientSecret oauth;
     RedditOauth.Username := RedditOauth.Username oauth;
     RedditOauth.Password := RedditOauth.Password oauth;
     RedditOauth.UserAgent := RedditOauth.UserAgent oauth;
     RedditOauth.AccessToken := token;
     RedditOauth.ExpiresAt := expiresAt |}.

(** [now] is the reading of [time.Now()] on the last line of the branch. *)
Definition TryAuthenticate (now : time.Time) (oauth : RedditOauth.t) : AuthOutcome :=
  if negb (RedditOauth.ClientId oauth =? "")
     && negb (RedditOauth.ClientSecret oauth =? "")
     && negb (RedditOauth.Username oauth =? "")
     && negb (RedditOauth.Password oauth =? "")
  then
    let body :=
      "grant_type=password&username=" ++ RedditOauth.Username oauth
      ++ "&password=" ++ RedditOauth.Password oauth in
    match http_NewRequest "POST" "https://www.reddit.com/api/v1/access_token"
            (Some body) with
    | inl err => {| auth_err := Some err; auth_oauth := oauth; auth_sent := [] |}
    | inr request =>
        let request :=
          SetBasicAuth request (RedditOauth.ClientId oauth)
            (RedditOauth.ClientSecret oauth) in
        match decodeJsonFromRequest_token request with
        | inl text =>
            {| auth_err := Some (serviceError text); auth_oauth := oauth;
               auth_sent := [request] |}
        | inr response =>
            if redditAccessTokenResponseJson.AccessToken response =? "" then
              {| auth_err := Some (errors_New "reddit access token undefined");
                 auth_oauth := oauth; auth_sent := [request] |}
            else if Z.eqb (redditAccessTokenResponseJson.ExpiresIn response) 0 then
              {| auth_err := Some (errors_New "reddit expires in undefined");
                 auth_oauth := oauth; auth_sent := [request] |}
            else
              {| auth_err := None;
                 auth_oauth :=
                   setToken oauth
                     (redditAccessTokenResponseJson.AccessToken response)
                     (time.Add now
                        (time.seconds
                           (redditAccessTokenResponseJson.ExpiresIn response)));
                 auth_sent := [request] |}
        end
    end
  else {| auth_err := None; auth_oauth := oauth; auth_sent := [] |}.

(** *** FetchSubredditPosts *)

(** [useOauth := oauth != nil && oauth.AccessToken != ""]; [None] is the
    [nil] pointer. *)
Definition useOauth (oauth : option RedditOauth.t) : bool :=
  match oauth with
  | Some o => negb (RedditOauth.AccessToken o =? "")
  | None => false
  end.

(** The state after the selection of the host (lines 110 to 121): the
    base URL, the error of [TryAuthenticate] if it was called and failed,
    the credential behind the pointer and the requests sent so far. *)
Record HostOutcome : Type := {
  host_baseRequestUrl : string;
  host_err : option error;
  host_oauth : option RedditOauth.t;
  host_sent : list http.Request
}.

(** [now_check] is the reading of [time.Now()] in [ShouldReauthenticate],
    [now_auth] the later one in [TryAuthenticate]. *)
Definition selectHost (now_check now_auth : time.Time)
    (oauth : option RedditOauth.t) : HostOutcome :=
  match oauth with
  | Some o =>
      if negb (RedditOauth.AccessToken o =? "") then
        if ShouldReauthenticate now_check o then
          let a := TryAuthenticate now_auth o in
          {| host_baseRequestUrl := "https://oauth.reddit.com";
             host_err := auth_err a;
             host_oauth := Some (auth_oauth a);
             host_sent := auth_sent a |}
        else
          {| host_baseRequestUrl := "https://oauth.reddit.com";
             host_err := None; host_oauth := oauth; host_sent := [] |}
      else
        {| host_baseRequestUrl := "https://reddit.com";
           host_err := None; host_oauth := oauth; host_sent := [] |}
  | None =>
      {| host_baseRequestUrl := "https://reddit.com";
         host_err := None; host_oauth := oauth; host_sent := [] |}
  end.

(** The query values (lines 106 and 123 to 130). *)
Definition buildQuery (subreddit sort topPeriod search : string) : url.Values :=
  let query : url.Values := [] in
  let query :=
    if negb (search =? "") then
      url.Set_ (url.Set_ query "q" (search ++ " subreddit:" ++ subreddit))
        "sort" sort
    else query in
  let query :=
    if sort =? "top" then url.Set_ query "t" topPeriod else query in
  query.

(** The request URL (lines 132 to 140). *)
Definition buildRequestUrl
    (baseRequestUrl subreddit sort topPeriod search requestUrlTemplate : string)
  : string :=
  let query := buildQuery subreddit sort topPeriod search in
  let requestUrl :=
    if negb (search =? "") then
      baseRequestUrl ++ "/search.json?" ++ url.Encode query
    else
      baseRequestUrl ++ "/r/" ++ subreddit ++ "/" ++ sort ++ ".json?"
      ++ url.Encode query in
  if negb (requestUrlTemplate =? "") then
    strings.ReplaceAll requestUrlTemplate "{REQUEST-URL}" requestUrl
  else requestUrl.

(** The headers (lines 148 to 160); [oauth] is the credential as
    [TryAuthenticate] may have left it.  [use] implies a credential, the
    [None] branch under [use] is never taken. *)
Definition setRequestHeaders (use : bool) (oauth : option RedditOauth.t)
    (request : http.Request) : http.Request :=
  if use then
    match oauth with
    | Some o =>
        let userAgent :=
          if negb (RedditOauth.UserAgent o =? "") then RedditOauth.UserAgent o
          else "glance/0.1 by " ++ RedditOauth.Username o in
        let request :=
          Request_Header_Set request "Authorization"
            ("bearer " ++ RedditOauth.AccessToken o) in
        Request_Header_Set request "User-Agent" userAgent
    | None => request
    end
  else addBrowserUserAgentHeader request.

(** What the first part of [FetchSubredditPosts] (lines 106 to 166)
    leaves behind: the decoded listing or the error returned. *)
Record ListingOutcome : Type := {
  listing_result : error + subredditResponseJson.t;
  listing_oauth : option RedditOauth.t;
  listing_sent : list http.Request
}.

Definition requestListing (now_check now_auth : time.Time)
    (subreddit sort topPeriod search requestUrlTemplate : string)
    (oauth : option RedditOauth.t) : ListingOutcome :=
  let use := useOauth oauth in
  let host := selectHost now_check now_auth oauth in
  match host_err host with
  | Some err =>
      {| listing_result := inl err; listing_oauth := host_oauth host;
         listing_sent := host_sent host |}
  | None =>
      let requestUrl :=
        buildRequestUrl (host_baseRequestUrl host) subreddit sort topPeriod
          search requestUrlTemplate in
      match http_NewRequest "GET" requestUrl None with
      | inl err =>
          {| listing_result := inl err; listing_oauth := host_oauth host;
             listing_sent := host_sent host |}
      | inr request =>
          let request := setRequestHeaders use (host_oauth host) request in
          {| listing_result :=
               match decodeJsonFromRequest_listing request with
               | inl text => inl (serviceError text)
               | inr responseJson => inr responseJson
               end;
             listing_oauth := host_oauth host;
             listing_sent := host_sent host ++ [request] |}
      end
  end.

(** The body of the loop for a post that is kept (lines 181 to 224): the
    composite literal, then the assignments in the order of the source. *)
Definition normalizePost (commentsUrlTemplate subreddit : string)
    (showFlairs : bool) (post : postJson.t) : ForumPost.t :=
  let commentsUrl :=
    if commentsUrlTemplate =? "" then
      "https://www.reddit.com" ++ postJson.Permalink post
    else
      templateRedditCommentsURL commentsUrlTemplate subreddit
        (postJson.Id post) (postJson.Permalink post) in
  let forumPost :=
    {| ForumPost.Title := html_UnescapeString (postJson.Title post);
       ForumPost.DiscussionUrl := commentsUrl;
       ForumPost.TargetUrl := "";
       ForumPost.TargetUrlDomain := postJson.Domain post;
       ForumPost.ThumbnailUrl := "";
       ForumPost.CommentCount := postJson.CommentsCount post;
       ForumPost.Score := postJson.Upvotes post;
       ForumPost.TimePosted :=
         time.Unix (int64_of_float64 (postJson.Time post));
       ForumPost.Tags := [];
       ForumPost.IsCrosspost := false |} in
  let forumPost :=
    if negb (postJson.Thumbnail post =? "")
       && negb (postJson.Thumbnail post =? "self")
       && negb (postJson.Thumbnail post =? "default")
       && negb (postJson.Thumbnail post =? "nsfw")
    then
      ForumPost.set_ThumbnailUrl forumPost
        (html_UnescapeString (postJson.Thumbnail post))
    else forumPost in
  let forumPost :=
    if negb (postJson.IsSelf post)
    then ForumPost.set_TargetUrl forumPost (postJson.Url post)
    else forumPost in
  let forumPost :=
    if showFlairs && negb (postJson.Flair post =? "")
    then
      ForumPost.set_Tags forumPost
        (ForumPost.Tags forumPost ++ [postJson.Flair post])%list
    else forumPost in
  let forumPost :=
    match postJson.ParentList post with
    | parent0 :: _ =>
        let forumPost := ForumPost.set_IsCrosspost forumPost true in
        let forumPost :=
          ForumPost.set_TargetUrlDomain forumPost
            ("r/" ++ parentJson.Subreddit parent0) in
        if commentsUrlTemplate =? "" then
          ForumPost.set_TargetUrl forumPost
            ("https://www.reddit.com" ++ parentJson.Permalink parent0)
        else
          ForumPost.set_TargetUrl forumPost
            (templateRedditCommentsURL commentsUrlTemplate
               (parentJson.Subreddit parent0) (parentJson.Id parent0)
               (parentJson.Permalink parent0))
    | [] => forumPost
    end in
  forumPost.

(** The loop over [responseJson.Data.Children] (lines 174 to 227), from
    the posts appended so far. *)
Fixpoint normalizeLoop (commentsUrlTemplate subreddit : string)
    (showFlairs : bool) (children : list childJson.t) (posts : ForumPosts)
  : ForumPosts :=
  match children with
  | [] => posts
  | child :: children' =>
      let post := childJson.Data child in
      if postJson.Stickied post || postJson.Pinned post then
        normalizeLoop commentsUrlTemplate subreddit showFlairs children' posts
      else
        normalizeLoop commentsUrlTemplate subreddit showFlairs children'
          (posts ++ [normalizePost commentsUrlTemplate subreddit showFlairs post])%list
  end.

(** What a call of [FetchSubredditPosts] leaves behind: the two values it
    returns ([[]] for the [nil] slice, [None] for the [nil] error), the
    credential behind the pointer and the requests sent. *)
Record FetchOutcome : Type := {
  fetch_posts : ForumPosts;
  fetch_err : option error;
  fetch_oauth : option RedditOauth.t;
  fetch_sent : list http.Request
}.

Definition FetchSubredditPosts (now_check now_auth : time.Time)
    (subreddit sort topPeriod search commentsUrlTemplate requestUrlTemplate : string)
    (showFlairs : bool) (oauth : option RedditOauth.t) : FetchOutcome :=
  let l :=
    requestListing now_check now_auth subreddit sort topPeriod search
      requestUrlTemplate oauth in
  match listing_result l with
  | inl err =>
      {| fetch_posts := []; fetch_err := Some err;
         fetch_oauth := listing_oauth l; fetch_sent := listing_sent l |}
  | inr responseJson =>
      if Nat.eqb (List.length (subredditResponseJson.Children responseJson)) 0 then
        {| fetch_posts := []; fetch_err := Some (errors_New "no posts found");
           fetch_oauth := listing_oauth l; fetch_sent := listing_sent l |}
      else
        {| fetch_posts :=
             normalizeLoop commentsUrlTemplate subreddit showFlairs
               (subredditResponseJson.Children responseJson) [];
           fetch_err := None;
           fetch_oauth := listing_oauth l; fetch_sent := listing_sent l |}
  end.

End Reddit.

(** ** Concrete collaborators, for running the model *)

Module Sample.

(** A small stand-in for [html.UnescapeString]: the three entities
    [&lt;], [&gt;] and [&amp;]. *)
Definition unescape (s : string) : string :=
  strings.ReplaceAll
    (strings.ReplaceAll (strings.ReplaceAll s "&lt;" "<") "&gt;" ">")
    "&amp;" "&".

(** Truncation of a finite float towards zero; the other values give the
    least [int64], as on amd64. *)
Definition truncate (f : float64) : Z :=
  match f with
  | S754_zero _ => 0%Z
  | S754_finite sign m e =>
      let magnitude :=
        if (0 <=? e)%Z then Z.shiftl (Zpos m) e else Z.shiftr (Zpos m) (- e) in
      let z := if sign then (- magnitude)%Z else magnitude in
      if ((- 2 ^ 63 <=? z) && (z <? 2 ^ 63))%Z then z else (- 2 ^ 63)%Z
  | _ => (- 2 ^ 63)%Z
  end.

(** Services whose token and listing exchanges give the stated replies,
    whatever the request. *)
Definition services
    (tokenReply : string + redditAccessTokenResponseJson.t)
    (listingReply : string + subredditResponseJson.t) : Services :=
  {| html_UnescapeString := unescape;
     int64_of_float64 := truncate;
     base64_EncodeToString := fun s => s;
     http_NewRequest_err := fun _ _ => None;
     decodeJsonFromRequest_token := fun _ => tokenReply;
     decodeJsonFromRequest_listing := fun _ => listingReply;
     browserUserAgent := "Mozilla/5.0" |}.

Definition token (accessToken : string) (expiresIn : Z)
  : redditAccessTokenResponseJson.t :=
  {| redditAccessTokenResponseJson.AccessToken := accessToken;
     redditAccessTokenResponseJson.ExpiresIn := expiresIn;
     redditAccessTokenResponseJson.Scope := "*";
     redditAccessTokenResponseJson.TokenType := "bearer" |}.

(** A configured credential that has not been authenticated yet. *)
Definition credential : RedditOauth.t :=
  {| RedditOauth.ClientId := "id";
     RedditOauth.ClientSecret := "secret";
     RedditOauth.Username := "alice";
     RedditOauth.Password := "hunter2";
     RedditOauth.UserAgent := "";
     RedditOauth.AccessToken := "";
     RedditOauth.ExpiresAt := time.zero |}.

(** The same credential with a token that expires at [expiresAt]. *)
Definition authenticated (expiresAt : time.Time) : RedditOauth.t :=
  {| RedditOauth.ClientId := "id";
     RedditOauth.ClientSecret := "secret";
     RedditOauth.Username := "alice";
     RedditOauth.Password := "hunter2";
     RedditOauth.UserAgent := "";
     RedditOauth.AccessToken := "old-token";
     RedditOauth.ExpiresAt := expiresAt |}.

(** A credential without a password. *)
Definition incomplete : RedditOauth.t :=
  {| RedditOauth.ClientId := "id";
     RedditOauth.ClientSecret := "secret";
     RedditOauth.Username := "alice";
     RedditOauth.Password := "";
     RedditOauth.UserAgent := "";
     RedditOauth.AccessToken := "";
     RedditOauth.ExpiresAt := time.zero |}.

(** 2024-01-01 00:00:00 UTC. *)
Definition now : time.Time := time.Unix 1704067200.

Definition post (id title url thumbnail : string) (isSelf stickied pinned : bool)
    (parents : list parentJson.t) : childJson.t :=
  {| childJson.Data :=
       {| postJson.Id := id;
          postJson.Title := title;
          postJson.Upvotes := 10;
          postJson.Url := url;
          postJson.Time := S754_finite false 1704067200 0;
          postJson.CommentsCount := 3;
          postJson.Domain := "example.com";
          postJson.Permalink := "/r/golang/comments/" ++ id ++ "/";
          postJson.Stickied := stickied;
          postJson.Pinned := pinned;
          postJson.IsSelf := isSelf;
          postJson.Thumbnail := thumbnail;
          postJson.Flair := "news";
          postJson.ParentList := parents |} |}.

Definition parent (id subreddit : string) : parentJson.t :=
  {| parentJson.Id := id;
     parentJson.Subreddit := subreddit;
     parentJson.Permalink := "/r/" ++ subreddit ++ "/comments/" ++ id ++ "/" |}.

(** A listing with a stickied post, a link post, a self post, a pinned
    post and a crosspost with two parents. *)
Definition listing : subredditResponseJson.t :=
  {| subredditResponseJson.Children :=
       [ post "a1" "Rules" "" "self" true true false [];
         post "b2" "Go 1.22 &amp; you" "http://x" "default" false false false [];
         post "c3" "Ask" "https://www.reddit.com/r/golang/comments/c3/" "self"
           true false false [];
         post "d4" "Pinned" "http://y" "" false false true [];
         post "e5" "Seen elsewhere" "https://www.reddit.com/r/golang/comments/e5/"
           "https://t.example/e5.jpg?a=1&amp;b=2" false false false
           [parent "p1" "programming"; parent "p2" "rust"] ] |}.

(** A listing whose only entry is a link post without a link. *)
Definition linkless : subredditResponseJson.t :=
  {| subredditResponseJson.Children :=
       [ post "f6" "No link" "" "" false false false [] ] |}.

Definition empty : subredditResponseJson.t :=
  {| subredditResponseJson.Children := [] |}.

End Sample.


(** ** Notions used in the statements *)

(** The entries of a listing the loop does not skip (line 177). *)
Definition kept (child : childJson.t) : bool :=
  negb (postJson.Stickied (childJson.Data child)
        || postJson.Pinned (childJson.Data child)).

(** The invariant of the credential: a token comes with an expiry. *)
Definition credentialInvariant (o : RedditOauth.t) : Prop :=
  RedditOauth.AccessToken o <> "" -> RedditOauth.ExpiresAt o <> time.zero.

(** The URL of the token endpoint (line 79). *)
Definition tokenEndpoint : string := "https://www.reddit.com/api/v1/access_token".

(** The request [TryAuthenticate] hands to [decodeJsonFromRequest] (lines
    78 to 83). *)
Definition tokenRequest {svc : Services} (oauth : RedditOauth.t) : http.Request :=
  SetBasicAuth
    {| http.Method := "POST";
       http.URL := tokenEndpoint;
       http.Body :=
         Some ("grant_type=password&username=" ++ RedditOauth.Username oauth
               ++ "&password=" ++ RedditOauth.Password oauth);
       http.Headers := [] |}
    (RedditOauth.ClientId oauth) (RedditOauth.ClientSecret oauth).

(** [Replaced old new s s'] holds when [s'] is [s] with the occurrences of
    [old], taken from the left and not overlapping, replaced by [new]. *)
Inductive Replaced (old new : string) : string -> string -> Prop :=
| Replaced_end : Replaced old new "" ""
| Replaced_here (rest rest' : string) :
    Replaced old new rest rest' ->
    Replaced old new (old ++ rest) (new ++ rest')
| Replaced_next (c : ascii) (s s' : string) :
    strings.HasPrefix (String c s) old = false ->
    Replaced old new s s' ->
    Replaced old new (String c s) (String c s').

(** The [GET] request of [FetchSubredditPosts] for the final URL (lines
    142 to 160), with the headers set. *)
Definition listingRequest {svc : Services} (use : bool)
    (oauth : option RedditOauth.t) (requestUrl : string) : http.Request :=
  setRequestHeaders use oauth
    {| http.Method := "GET"; http.URL := requestUrl; http.Body := None;
       http.Headers := [] |}.

(** The [User-Agent] of an authenticated request (lines 149 to 154). *)
Definition userAgentOf (o : RedditOauth.t) : string :=
  if RedditOauth.UserAgent o =? "" then "glance/0.1 by " ++ RedditOauth.Username o
  else RedditOauth.UserAgent o.

(** Two credentials with the same identity fields. *)
Definition sameIdentity (a b : RedditOauth.t) : Prop :=
  RedditOauth.ClientId a = RedditOauth.ClientId b
  /\ RedditOauth.ClientSecret a = RedditOauth.ClientSecret b
  /\ RedditOauth.Username a = RedditOauth.Username b
  /\ RedditOauth.Password a = RedditOauth.Password b
  /\ RedditOauth.UserAgent a = RedditOauth.UserAgent b.

(** [braceFree s]: no byte of [s] is an opening brace. *)
Definition braceFree (s : string) : bool :=
  negb (strings.containsByte s "{"%char).

(** A comments URL template seen as a sequence of literal text and
    placeholders. *)
Inductive segment : Type :=
| Literal (text : string)
| SUBREDDIT
| POST_ID
| POST_PATH.

(** The text of a segment in the template. *)
Definition segmentText (g : segment) : string :=
  match g with
  | Literal text => text
  | SUBREDDIT => "{SUBREDDIT}"
  | POST_ID => "{POST-ID}"
  | POST_PATH => "{POST-PATH}"
  end.

(** The template a sequence of segments stands for. *)
Fixpoint render (gs : list segment) : string :=
  match gs with
  | [] => ""
  | g :: gs' => segmentText g ++ render gs'
  end.

(** The literal text of a well-formed sequence has no opening brace: every
    opening brace of the template starts a placeholder. *)
Definition wellFormed (gs : list segment) : bool :=
  forallb (fun g => match g with Literal text => braceFree text | _ => true end)
    gs.

(** One segment with [placeholder] replaced by [new]. *)
Definition replaceSegment (placeholder : segment) (new : string) (g : segment)
  : segment :=
  match placeholder, g with
  | SUBREDDIT, SUBREDDIT => Literal new
  | POST_ID, POST_ID => Literal new
  | POST_PATH, POST_PATH => Literal new
  | _, _ => g
  end.

(** Every placeholder replaced by its value at once. *)
Fixpoint substitute (subreddit postId postPath : string) (gs : list segment)
  : string :=
  match gs with
  | [] => ""
  | Literal text :: gs' => text ++ substitute subreddit postId postPath gs'
  | SUBREDDIT :: gs' => subreddit ++ substitute subreddit postId postPath gs'
  | POST_ID :: gs' => postId ++ substitute subreddit postId postPath gs'
  | POST_PATH :: gs' =>
      strings.TrimLeft postPath "/" ++ substitute subreddit postId postPath gs'
  end.

(** ** Strings *)

Lemma eqb_empty_false (s : string) : (s =? "") = false <-> s <> "".
Proof. apply String.eqb_neq. Qed.

Lemma append_empty_r (s : string) : s ++ "" = s.
Proof. induction s as [|c s IH]; simpl; [reflexivity | now rewrite IH]. Qed.

Lemma append_assoc (a b c : string) : (a ++ b) ++ c = a ++ (b ++ c).
Proof. induction a as [|x a IH]; simpl; [reflexivity | now rewrite IH]. Qed.

Lemma length_append (a b : string) :
  String.length (a ++ b) = String.length a + String.length b.
Proof. induction a as [|x a IH]; simpl; [reflexivity | now rewrite IH]. Qed.

Lemma append_eq_empty (a b : string) : a ++ b = "" -> a = "" /\ b = "".
Proof. destruct a; simpl; [auto | discriminate]. Qed.

Lemma HasPrefix_append (old rest : string) :
  strings.HasPrefix (old ++ rest) old = true.
Proof.
  induction old as [|c old IH]; simpl.
  - now destruct rest.
  - now rewrite Ascii.eqb_refl, IH.
Qed.

Lemma replaceFrom_skip (old' rest old new : string) :
  strings.replaceFrom (String.length old') (old' ++ rest) old new
  = strings.replaceFrom 0 rest old new.
Proof.
  induction old' as [|c old' IH]; simpl.
  - now destruct rest.
  - exact IH.
Qed.

Lemma ReplaceAll_here (c : ascii) (old' rest new : string) :
  strings.ReplaceAll (String c old' ++ rest) (String c old') new
  = new ++ strings.ReplaceAll rest (String c old') new.
Proof.
  unfold strings.ReplaceAll.
  change (String c old' ++ rest) with (String c (old' ++ rest)).
  cbn [strings.replaceFrom].
  change (String c (old' ++ rest)) with (String c old' ++ rest).
  rewrite HasPrefix_append.
  replace (String.length (String c old') - 1) with (String.length old')
    by (simpl; lia).
  now rewrite replaceFrom_skip.
Qed.

Lemma ReplaceAll_next (c : ascii) (s old new : string) :
  old <> "" ->
  strings.HasPrefix (String c s) old = false ->
  strings.ReplaceAll (String c s) old new
  = String c (strings.ReplaceAll s old new).
Proof.
  intros Hold Hpre. destruct old as [|d old']; [congruence|].
  unfold strings.ReplaceAll. cbn [strings.replaceFrom].
  now rewrite Hpre.
Qed.

Lemma HasPrefix_split (s old : string) :
  strings.HasPrefix s old = true -> exists rest, s = old ++ rest.
Proof.
  revert s. induction old as [|d old IH]; intros s H.
  - now exists s.
  - destruct s as [|c s]; simpl in H; [discriminate|].
    apply andb_true_iff in H. destruct H as [Hc Hs].
    apply Ascii.eqb_eq in Hc. subst d.
    destruct (IH _ Hs) as [rest ->]. now exists rest.
Qed.

(** [strings.ReplaceAll] replaces every occurrence of a non-empty [old],
    from the left. *)
Lemma ReplaceAll_Replaced (old new : string) :
  old <> "" -> forall s, Replaced old new s (strings.ReplaceAll s old new).
Proof.
  intros Hold.
  destruct old as [|d old']; [congruence|].
  assert (Hlen : forall n s, String.length s <= n ->
            Replaced (String d old') new s
              (strings.ReplaceAll s (String d old') new)).
  { induction n as [|n IH]; intros s Hn.
    - destruct s; simpl in Hn; [constructor | lia].
    - destruct s as [|c s]; [constructor|].
      destruct (strings.HasPrefix (String c s) (String d old')) eqn:Hpre.
      + destruct (HasPrefix_split _ _ Hpre) as [rest Hrest].
        rewrite Hrest, ReplaceAll_here.
        constructor. apply IH.
        assert (String.length (String c s)
                = String.length (String d old') + String.length rest)
          by (rewrite Hrest; apply length_append).
        simpl in *. lia.
      + rewrite ReplaceAll_next by (congruence || assumption).
        constructor; [assumption|].
        apply IH. simpl in Hn. lia. }
  intros s. now apply (Hlen (String.length s)).
Qed.

Lemma append_cancel_l (a b c : string) : a ++ b = a ++ c -> b = c.
Proof.
  induction a as [|x a IH]; simpl; intros H; [assumption|].
  injection H as H. now apply IH.
Qed.

(** [Replaced] determines the result. *)
Lemma Replaced_functional (old new s s1 s2 : string) :
  old <> "" ->
  Replaced old new s s1 -> Replaced old new s s2 -> s1 = s2.
Proof.
  intros Hold H1. revert s2.
  induction H1 as [|rest rest1 H1 IH|c s s1 Hpre H1 IH]; intros s2 H2.
  - remember "" as e eqn:He.
    destruct H2 as [|rest rest2 H2|c s s2 Hpre H2];
      [reflexivity | | discriminate].
    apply append_eq_empty in He. destruct He as [-> ->].
    exfalso. now apply Hold.
  - remember (old ++ rest) as t eqn:Ht.
    destruct H2 as [|rest0 rest2 H2|c s s2 Hpre H2].
    + symmetry in Ht. apply append_eq_empty in Ht. tauto.
    + apply append_cancel_l in Ht. subst rest0. f_equal. now apply IH.
    + rewrite Ht, HasPrefix_append in Hpre. discriminate.
  - remember (String c s) as t eqn:Ht.
    destruct H2 as [|rest rest2 H2|c' s' s2 Hpre' H2].
    + discriminate.
    + rewrite HasPrefix_append in Hpre. discriminate.
    + injection Ht as -> ->. f_equal. now apply IH.
Qed.

Lemma ReplaceAll_nonempty (s old new : string) :
  s <> "" -> new <> "" -> strings.ReplaceAll s old new <> "".
Proof.
  intros Hs Hnew. destruct old as [|d old']; [exact Hs|].
  destruct s as [|c s]; [congruence|].
  unfold strings.ReplaceAll. cbn [strings.replaceFrom].
  destruct (strings.HasPrefix _ _).
  - intros H. apply append_eq_empty in H. tauto.
  - discriminate.
Qed.

Lemma Sample_unescape_nonempty (s : string) :
  Sample.unescape s = "" -> s = "".
Proof.
  intros H. destruct (string_dec s "") as [|Hs]; [assumption|].
  exfalso. revert H. unfold Sample.unescape.
  repeat apply ReplaceAll_nonempty; (assumption || discriminate).
Qed.

(** ** Templates *)

Lemma braceFree_String (c : ascii) (s : string) :
  braceFree (String c s) = true ->
  Ascii.eqb c "{" = false /\ braceFree s = true.
Proof.
  unfold braceFree. cbn [strings.containsByte].
  rewrite negb_true_iff, orb_false_iff.
  rewrite (Ascii.eqb_sym "{" c). intros [H1 H2]. now rewrite H2.
Qed.

Lemma braceFree_append (a b : string) :
  braceFree a = true -> braceFree b = true -> braceFree (a ++ b) = true.
Proof.
  induction a as [|c a IH]; simpl; intros Ha Hb; [assumption|].
  destruct (braceFree_String _ _ Ha) as [Hc Ha'].
  unfold braceFree in *. cbn [String.append strings.containsByte].
  rewrite (Ascii.eqb_sym "{" c), Hc. cbn [orb]. now apply IH.
Qed.

(** The scan steps over text without an opening brace. *)
Lemma ReplaceAll_braceFree_prefix (text rest old' new : string) :
  braceFree text = true ->
  strings.ReplaceAll (text ++ rest) (String "{" old') new
  = text ++ strings.ReplaceAll rest (String "{" old') new.
Proof.
  induction text as [|c text IH]; intros Hfree; [reflexivity|].
  destruct (braceFree_String _ _ Hfree) as [Hc Hfree'].
  change (String c text ++ rest) with (String c (text ++ rest)).
  rewrite ReplaceAll_next; [|discriminate|].
  - cbn [String.append]. f_equal. now apply IH.
  - cbn [strings.HasPrefix]. now rewrite Hc.
Qed.

(** Text without an opening brace has no placeholder to replace. *)
Lemma ReplaceAll_braceFree (text old' new : string) :
  braceFree text = true ->
  strings.ReplaceAll text (String "{" old') new = text.
Proof.
  intros Hfree.
  rewrite <- (append_empty_r text) at 1.
  rewrite ReplaceAll_braceFree_prefix by assumption.
  unfold strings.ReplaceAll. simpl. apply append_empty_r.
Qed.

(** One pass of [strings.ReplaceAll] over a well-formed template replaces
    the segments of its placeholder and nothing else. *)
Lemma ReplaceAll_render (placeholder : segment) (new : string)
    (gs : list segment) :
  (forall text, placeholder <> Literal text) ->
  wellFormed gs = true ->
  strings.ReplaceAll (render gs) (segmentText placeholder) new
  = render (map (replaceSegment placeholder new) gs).
Proof.
  intros Hp. induction gs as [|g gs IH]; intros Hwf.
  - destruct placeholder; try reflexivity. now elim (Hp text).
  - simpl in Hwf. apply andb_true_iff in Hwf. destruct Hwf as [Hg Hwf].
    specialize (IH Hwf). cbn [render map].
    destruct placeholder as [text| | |]; [now elim (Hp text)| | |];
      destruct g as [lit| | |]; cbn [segmentText replaceSegment] in *;
      try (rewrite ReplaceAll_braceFree_prefix by assumption; now rewrite IH);
      try (rewrite ReplaceAll_here; now rewrite IH);
      match goal with
      | |- strings.ReplaceAll (String "{" ?q ++ ?rest) ?old new = _ =>
          change (String "{" q ++ rest) with (String "{" (q ++ rest));
          rewrite ReplaceAll_next by (discriminate || reflexivity);
          match goal with
          | |- String _ (strings.ReplaceAll (?q' ++ _) _ _) = _ =>
              rewrite (ReplaceAll_braceFree_prefix q') by reflexivity
          end;
          now rewrite IH
      end.
Qed.

Lemma wellFormed_replaceSegment (placeholder : segment) (new : string)
    (gs : list segment) :
  braceFree new = true ->
  wellFormed gs = true ->
  wellFormed (map (replaceSegment placeholder new) gs) = true.
Proof.
  intros Hnew. induction gs as [|g gs IH]; simpl; intros Hwf; [reflexivity|].
  apply andb_true_iff in Hwf. destruct Hwf as [Hg Hwf].
  rewrite (IH Hwf), andb_true_r.
  destruct placeholder, g; simpl; assumption || reflexivity.
Qed.

Lemma render_substituted (subreddit postId postPath : string)
    (gs : list segment) :
  render
    (map (replaceSegment POST_PATH (strings.TrimLeft postPath "/"))
       (map (replaceSegment POST_ID postId)
          (map (replaceSegment SUBREDDIT subreddit) gs)))
  = substitute subreddit postId postPath gs.
Proof.
  induction gs as [|g gs IH]; [reflexivity|].
  destruct g; cbn [map replaceSegment render segmentText substitute];
    now rewrite IH.
Qed.

(** The three passes of [templateRedditCommentsURL] over a well-formed
    template, with values without opening braces, replace every
    placeholder by its value at once. *)
Lemma three_passes_substitute (gs : list segment)
    (subreddit postId postPath : string) :
  wellFormed gs = true ->
  braceFree subreddit = true ->
  braceFree postId = true ->
  strings.ReplaceAll
    (strings.ReplaceAll
       (strings.ReplaceAll (render gs) "{SUBREDDIT}" subreddit)
       "{POST-ID}" postId)
    "{POST-PATH}" (strings.TrimLeft postPath "/")
  = substitute subreddit postId postPath gs.
Proof.
  intros Hwf Hsub Hid.
  change "{SUBREDDIT}" with (segmentText SUBREDDIT).
  change "{POST-ID}" with (segmentText POST_ID).
  change "{POST-PATH}" with (segmentText POST_PATH).
  rewrite ReplaceAll_render by (discriminate || assumption).
  rewrite ReplaceAll_render
    by (discriminate || now apply wellFormed_replaceSegment).
  rewrite ReplaceAll_render
    by (discriminate || now repeat apply wellFormed_replaceSegment).
  apply render_substituted.
Qed.

(** A relation between two lists holds of the elements at one index. *)
Lemma Forall2_nth_error {A B : Type} (P : A -> B -> Prop)
    (l : list A) (l' : list B) :
  Forall2 P l l' ->
  forall (n : nat) (x : A) (y : B),
    nth_error l n = Some x -> nth_error l' n = Some y -> P x y.
Proof.
  induction 1 as [|a b l l' Hab _ IH]; intros n x y Hx Hy.
  - destruct n; discriminate.
  - destruct n as [|n]; simpl in Hx, Hy.
    + injection Hx as <-. injection Hy as <-. exact Hab.
    + exact (IH n x y Hx Hy).
Qed.

(** ** Durations *)

Lemma int64_range (z : Z) : (- 2 ^ 63 <= time.int64 z < 2 ^ 63)%Z.
Proof.
  unfold time.int64.
  pose proof (Z.mod_pos_bound (z + 2 ^ 63) (2 ^ 64) ltac:(lia)). lia.
Qed.

Lemma int64_small (z : Z) :
  (- 2 ^ 63 <= z < 2 ^ 63)%Z -> time.int64 z = z.
Proof.
  intros H. unfold time.int64. rewrite Z.mod_small; lia.
Qed.

(** Up to 9223372036 seconds (some 292 years) either way, the duration is
    the number of seconds asked for. *)
Lemma seconds_exact (n : Z) :
  (- 9223372036 <= n <= 9223372036)%Z ->
  time.seconds n = (n * time.Second)%Z.
Proof.
  intros H. unfold time.seconds, time.Second.
  rewrite (int64_small n) by lia. apply int64_small. lia.
Qed.

(** A duration added to a reading of the clock taken after 1970 never
    gives the zero instant. *)
Lemma Add_seconds_nonzero (now : time.Time) (n : Z) :
  (time.unixEpoch <= now)%Z -> time.Add now (time.seconds n) <> time.zero.
Proof.
  unfold time.Add, time.seconds, time.zero, time.unixEpoch, time.Second.
  intros Hnow.
  pose proof (int64_range (time.int64 n * 1000000000)). lia.
Qed.

(** ** The credential and the authenticator *)

Section Credential.

Context {svc : Services}.

Lemma ShouldAuthenticate_false (oauth : RedditOauth.t) :
  ShouldAuthenticate oauth = false <->
  RedditOauth.ClientId oauth = "" \/ RedditOauth.ClientSecret oauth = ""
  \/ RedditOauth.Username oauth = "" \/ RedditOauth.Password oauth = "".
Proof.
  unfold ShouldAuthenticate.
  rewrite !andb_false_iff, !negb_false_iff, !String.eqb_eq. tauto.
Qed.

Lemma ShouldAuthenticate_true (oauth : RedditOauth.t) :
  ShouldAuthenticate oauth = true <->
  RedditOauth.ClientId oauth <> "" /\ RedditOauth.ClientSecret oauth <> ""
  /\ RedditOauth.Username oauth <> "" /\ RedditOauth.Password oauth <> "".
Proof.
  unfold ShouldAuthenticate.
  rewrite !andb_true_iff, !negb_true_iff, !String.eqb_neq. tauto.
Qed.

(** The guard of [TryAuthenticate] is [ShouldAuthenticate], written out. *)
Lemma TryAuthenticate_unconfigured (now : time.Time) (oauth : RedditOauth.t) :
  ShouldAuthenticate oauth = false ->
  TryAuthenticate now oauth
  = {| auth_err := None; auth_oauth := oauth; auth_sent := [] |}.
Proof.
  unfold ShouldAuthenticate, TryAuthenticate. now intros ->.
Qed.

(** The four ways out of the branch of a configured credential. *)
Lemma TryAuthenticate_configured (now : time.Time) (oauth : RedditOauth.t) :
  ShouldAuthenticate oauth = true ->
  TryAuthenticate now oauth =
  match http_NewRequest_err "POST" tokenEndpoint with
  | Some text =>
      {| auth_err := Some (serviceError text); auth_oauth := oauth;
         auth_sent := [] |}
  | None =>
      match decodeJsonFromRequest_token (tokenRequest oauth) with
      | inl text =>
          {| auth_err := Some (serviceError text); auth_oauth := oauth;
             auth_sent := [tokenRequest oauth] |}
      | inr response =>
          if redditAccessTokenResponseJson.AccessToken response =? "" then
            {| auth_err := Some (errors_New "reddit access token undefined");
               auth_oauth := oauth; auth_sent := [tokenRequest oauth] |}
          else if (redditAccessTokenResponseJson.ExpiresIn response =? 0)%Z then
            {| auth_err := Some (errors_New "reddit expires in undefined");
               auth_oauth := oauth; auth_sent := [tokenRequest oauth] |}
          else
            {| auth_err := None;
               auth_oauth :=
                 setToken oauth
                   (redditAccessTokenResponseJson.AccessToken response)
                   (time.Add now
                      (time.seconds
                         (redditAccessTokenResponseJson.ExpiresIn response)));
               auth_sent := [tokenRequest oauth] |}
      end
  end.
Proof.
  unfold ShouldAuthenticate, TryAuthenticate. intros ->.
  unfold http_NewRequest, tokenEndpoint.
  destruct (http_NewRequest_err _ _); reflexivity.
Qed.

(** C8. [ShouldReauthenticate()] is false for the zero expiry; for any
    other expiry it is true when the expiry is at or before the current
    time and false when it is strictly after it, without any margin: it is
    true exactly when the expiry is set and not after the current time. *)
Theorem ShouldReauthenticate_cases :
  forall (now : time.Time) (r : RedditOauth.t),
    (RedditOauth.ExpiresAt r = time.zero -> ShouldReauthenticate now r = false)
    /\ (RedditOauth.ExpiresAt r <> time.zero ->
        (RedditOauth.ExpiresAt r <= now)%Z -> ShouldReauthenticate now r = true)
    /\ ((now < RedditOauth.ExpiresAt r)%Z -> ShouldReauthenticate now r = false)
    /\ (ShouldReauthenticate now r = true <->
        RedditOauth.ExpiresAt r <> time.zero
        /\ (RedditOauth.ExpiresAt r <= now)%Z).
Proof.
  intros now r. unfold ShouldReauthenticate, time.IsZero, time.After.
  destruct (Z.eqb_spec (RedditOauth.ExpiresAt r) time.zero) as [Hz|Hz];
    destruct (Z.ltb_spec now (RedditOauth.ExpiresAt r)) as [Hlt|Hle];
    simpl; repeat split; intros; try congruence; try lia;
    try (destruct H; congruence); try tauto.
Qed.

(** C10. With one of the four identity fields empty, [TryAuthenticate]
    returns [nil], sends no request and leaves the whole credential as it
    was. *)
Theorem TryAuthenticate_incomplete_credential :
  forall (now : time.Time) (oauth : RedditOauth.t),
    RedditOauth.ClientId oauth = "" \/ RedditOauth.ClientSecret oauth = ""
    \/ RedditOauth.Username oauth = "" \/ RedditOauth.Password oauth = "" ->
    auth_err (TryAuthenticate now oauth) = None
    /\ auth_sent (TryAuthenticate now oauth) = []
    /\ auth_oauth (TryAuthenticate now oauth) = oauth.
Proof.
  intros now oauth H. apply ShouldAuthenticate_false in H.
  rewrite (TryAuthenticate_unconfigured now oauth H). auto.
Qed.

(** The credential [FetchSubredditPosts] leaves behind is the one it was
    given, or the one [TryAuthenticate] has left. *)
Lemma FetchSubredditPosts_oauth
    (now_check now_auth : time.Time)
    (subreddit sort topPeriod search commentsUrlTemplate requestUrlTemplate : string)
    (showFlairs : bool) (oauth : option RedditOauth.t) :
  let out :=
    FetchSubredditPosts now_check now_auth subreddit sort topPeriod search
      commentsUrlTemplate requestUrlTemplate showFlairs oauth in
  fetch_oauth out = oauth
  \/ exists o, oauth = Some o
       /\ fetch_oauth out = Some (auth_oauth (TryAuthenticate now_auth o)).
Proof.
  cbv zeta.
  assert (Hl : listing_oauth
                 (requestListing now_check now_auth subreddit sort topPeriod
                    search requestUrlTemplate oauth)
               = host_oauth (selectHost now_check now_auth oauth)).
  { unfold requestListing.
    destruct (host_err _); [reflexivity|].
    destruct (http_NewRequest _ _ _); reflexivity. }
  assert (Hf : fetch_oauth
                 (FetchSubredditPosts now_check now_auth subreddit sort
                    topPeriod search commentsUrlTemplate requestUrlTemplate
                    showFlairs oauth)
               = host_oauth (selectHost now_check now_auth oauth)).
  { unfold FetchSubredditPosts. rewrite <- Hl.
    destruct (listing_result _); [reflexivity|].
    destruct (Nat.eqb _ _); reflexivity. }
  rewrite Hf. unfold selectHost.
  destruct oauth as [o|]; [|now left].
  destruct (negb _); [|now left].
  destruct (ShouldReauthenticate _ _); [|now left].
  right. now exists o.
Qed.

(** C5 (amended). For a fully configured credential: a failure of the
    token exchange in transport or decoding is returned as it is, an empty
    [access_token] and a zero [expires_in] give two dedicated, different
    errors, and in all these cases the credential is left as it was; the
    credential changes on full success only, where the token is the one of
    the response and the expiry is the current time plus the 64-bit
    nanosecond duration [time.Duration(expires_in) * time.Second], which
    wraps around: it is [expires_in] seconds as long as [expires_in] is
    within 9223372036 either way. *)
Theorem TryAuthenticate_outcomes :
  forall (now : time.Time) (oauth : RedditOauth.t),
    ShouldAuthenticate oauth = true ->
    let out := TryAuthenticate now oauth in
    (forall text,
        http_NewRequest_err "POST" tokenEndpoint = Some text ->
        auth_err out = Some (serviceError text) /\ auth_oauth out = oauth)
    /\ (http_NewRequest_err "POST" tokenEndpoint = None ->
        (forall text,
            decodeJsonFromRequest_token (tokenRequest oauth) = inl text ->
            auth_err out = Some (serviceError text) /\ auth_oauth out = oauth)
        /\ (forall response,
               decodeJsonFromRequest_token (tokenRequest oauth) = inr response ->
               (redditAccessTokenResponseJson.AccessToken response = "" ->
                auth_err out = Some (errors_New "reddit access token undefined")
                /\ auth_oauth out = oauth)
               /\ (redditAccessTokenResponseJson.AccessToken response <> "" ->
                   redditAccessTokenResponseJson.ExpiresIn response = 0%Z ->
                   auth_err out = Some (errors_New "reddit expires in undefined")
                   /\ auth_oauth out = oauth)
               /\ (redditAccessTokenResponseJson.AccessToken response <> "" ->
                   redditAccessTokenResponseJson.ExpiresIn response <> 0%Z ->
                   auth_err out = None
                   /\ auth_oauth out
                      = setToken oauth
                          (redditAccessTokenResponseJson.AccessToken response)
                          (time.Add now
                             (time.seconds
                                (redditAccessTokenResponseJson.ExpiresIn response)))
                   /\ ((- 9223372036
                        <= redditAccessTokenResponseJson.ExpiresIn response
                        <= 9223372036)%Z ->
                       RedditOauth.ExpiresAt (auth_oauth out)
                       = (now
                          + redditAccessTokenResponseJson.ExpiresIn response
                            * time.Second)%Z))))
    /\ (auth_err out <> None -> auth_oauth out = oauth)
    /\ errors_New "reddit access token undefined"
       <> errors_New "reddit expires in undefined"
    /\ (forall text,
           auth_err out = Some (serviceError text) ->
           http_NewRequest_err "POST" tokenEndpoint = Some text
           \/ decodeJsonFromRequest_token (tokenRequest oauth) = inl text).
Proof.
  intros now oauth Hcfg out. subst out.
  rewrite (TryAuthenticate_configured now oauth Hcfg).
  split; [|split; [|split; [|split]]].
  - intros text Hnew. rewrite Hnew. simpl. auto.
  - intros Hnew. rewrite Hnew. split.
    + intros text Hdec. rewrite Hdec. simpl. auto.
    + intros response Hdec. rewrite Hdec.
      split; [|split].
      * intros Htok. apply String.eqb_eq in Htok. rewrite Htok. simpl. auto.
      * intros Htok Hexp. apply String.eqb_neq in Htok. rewrite Htok, Hexp.
        simpl. auto.
      * intros Htok Hexp. apply String.eqb_neq in Htok.
        apply Z.eqb_neq in Hexp. rewrite Htok, Hexp. simpl.
        split; [reflexivity|]. split; [reflexivity|].
        intros Hrange. unfold time.Add. now rewrite seconds_exact.
  - destruct (http_NewRequest_err _ _); [reflexivity|].
    destruct (decodeJsonFromRequest_token _) as [text|response];
      [reflexivity|].
    destruct (_ =? ""); [reflexivity|].
    destruct (_ =? 0)%Z; [reflexivity|].
    simpl. congruence.
  - discriminate.
  - intros text.
    destruct (http_NewRequest_err _ _) as [text0|].
    { simpl. intros H. left. congruence. }
    destruct (decodeJsonFromRequest_token _) as [text0|response].
    { simpl. intros H. right. congruence. }
    destruct (_ =? ""); [discriminate|].
    destruct (_ =? 0)%Z; discriminate.
Qed.

(** C9 (amended). [TryAuthenticate], the only path on which the
    credential changes, keeps the invariant "a token comes with an expiry"
    for any reading of the clock after 1970: it leaves the credential as it
    was, or sets a non-empty token together with an expiry of the current
    time plus the duration of a non-zero (not necessarily positive)
    [expires_in], which is not the zero instant.  [FetchSubredditPosts]
    keeps the invariant as well. *)
Theorem credentialInvariant_preserved :
  forall (now : time.Time) (oauth : RedditOauth.t),
    credentialInvariant oauth ->
    (time.unixEpoch <= now)%Z ->
    let out := TryAuthenticate now oauth in
    (auth_oauth out = oauth
     \/ (RedditOauth.AccessToken (auth_oauth out) <> ""
         /\ exists expiresIn : Z,
             expiresIn <> 0%Z
             /\ RedditOauth.ExpiresAt (auth_oauth out)
                = time.Add now (time.seconds expiresIn)
             /\ RedditOauth.ExpiresAt (auth_oauth out) <> time.zero))
    /\ credentialInvariant (auth_oauth out)
    /\ forall (now_check : time.Time)
         (subreddit sort topPeriod search commentsUrlTemplate
            requestUrlTemplate : string)
         (showFlairs : bool) (oauth' : RedditOauth.t),
        fetch_oauth
          (FetchSubredditPosts now_check now subreddit sort topPeriod search
             commentsUrlTemplate requestUrlTemplate showFlairs (Some oauth))
        = Some oauth' ->
        credentialInvariant oauth'.
Proof.
  intros now oauth Hinv Hnow out.
  assert (Hcases :
            auth_oauth out = oauth
            \/ (RedditOauth.AccessToken (auth_oauth out) <> ""
                /\ exists expiresIn : Z,
                    expiresIn <> 0%Z
                    /\ RedditOauth.ExpiresAt (auth_oauth out)
                       = time.Add now (time.seconds expiresIn)
                    /\ RedditOauth.ExpiresAt (auth_oauth out) <> time.zero)).
  { subst out. destruct (ShouldAuthenticate oauth) eqn:Hcfg.
    - rewrite (TryAuthenticate_configured now oauth Hcfg).
      destruct (http_NewRequest_err _ _); [now left|].
      destruct (decodeJsonFromRequest_token _) as [text|response];
        [now left|].
      destruct (String.eqb_spec
                  (redditAccessTokenResponseJson.AccessToken response) "");
        [now left|].
      destruct (Z.eqb_spec
                  (redditAccessTokenResponseJson.ExpiresIn response) 0);
        [now left|].
      right. simpl. split; [assumption|].
      exists (redditAccessTokenResponseJson.ExpiresIn response).
      repeat split; [assumption|]. now apply Add_seconds_nonzero.
    - rewrite (TryAuthenticate_unconfigured now oauth Hcfg). now left. }
  assert (Hout : credentialInvariant (auth_oauth out)).
  { destruct Hcases as [->|[_ [n [_ [_ Hnz]]]]]; [assumption|].
    intros _. exact Hnz. }
  repeat split; try assumption.
  intros now_check subreddit sort topPeriod search commentsUrlTemplate
    requestUrlTemplate showFlairs oauth' Hfetch.
  destruct (FetchSubredditPosts_oauth now_check now subreddit sort topPeriod
              search commentsUrlTemplate requestUrlTemplate showFlairs
              (Some oauth)) as [H|[o [Ho H]]];
    rewrite H in Hfetch.
  - now injection Hfetch as <-.
  - injection Ho as <-. now injection Hfetch as <-.
Qed.

End Credential.

(** *** Runs of the authenticator *)

Example ShouldReauthenticate_never_authenticated :
  ShouldReauthenticate Sample.now Sample.credential = false.
Proof. reflexivity. Qed.

Example ShouldReauthenticate_at_expiry :
  ShouldReauthenticate Sample.now (Sample.authenticated Sample.now) = true.
Proof. reflexivity. Qed.

Example ShouldReauthenticate_one_nanosecond_before_expiry :
  ShouldReauthenticate Sample.now (Sample.authenticated (Sample.now + 1)%Z)
  = false.
Proof. reflexivity. Qed.

Lemma TryAuthenticate_incomplete_credential_witness :
  RedditOauth.Password Sample.incomplete = ""
  /\ auth_sent
       (TryAuthenticate
          (svc := Sample.services (inr (Sample.token "tok" 3600))
                    (inr Sample.listing))
          Sample.now Sample.incomplete)
     = [].
Proof.
  split; [reflexivity|].
  apply (TryAuthenticate_incomplete_credential
           (svc := Sample.services (inr (Sample.token "tok" 3600))
                     (inr Sample.listing))
           Sample.now Sample.incomplete).
  right; right; right; reflexivity.
Defined.

(** A token that lasts an hour. *)
Lemma TryAuthenticate_outcomes_witness :
  ShouldAuthenticate Sample.credential = true
  /\ RedditOauth.ExpiresAt
       (auth_oauth
          (TryAuthenticate
             (svc := Sample.services (inr (Sample.token "tok" 3600))
                       (inr Sample.listing))
             Sample.now Sample.credential))
     = (Sample.now + 3600 * time.Second)%Z.
Proof.
  split; [reflexivity|].
  pose proof (TryAuthenticate_outcomes
                (svc := Sample.services (inr (Sample.token "tok" 3600))
                          (inr Sample.listing))
                Sample.now Sample.credential eq_refl) as H.
  destruct H as [_ [H _]].
  destruct (H eq_refl) as [_ H'].
  destruct (H' (Sample.token "tok" 3600) eq_refl) as [_ [_ Hok]].
  apply Hok; simpl; [discriminate | lia | lia].
Defined.

(** C5, as stated, fails where the multiplication by [time.Second]
    overflows: an [expires_in] of 9223372037 seconds is accepted, and the
    expiry set is not the current time plus that many seconds; it lies in
    the past. *)
Lemma TryAuthenticate_expiry_counterexample :
  let out :=
    TryAuthenticate
      (svc := Sample.services (inr (Sample.token "tok" 9223372037))
                (inr Sample.listing))
      Sample.now Sample.credential in
  ShouldAuthenticate Sample.credential = true
  /\ auth_err out = None
  /\ RedditOauth.AccessToken (auth_oauth out) = "tok"
  /\ RedditOauth.ExpiresAt (auth_oauth out)
     <> (Sample.now + 9223372037 * time.Second)%Z
  /\ (RedditOauth.ExpiresAt (auth_oauth out) < Sample.now)%Z.
Proof.
  cbv zeta. repeat split; try reflexivity.
  vm_compute. discriminate.
Qed.

Lemma credentialInvariant_preserved_witness :
  credentialInvariant (Sample.authenticated Sample.now)
  /\ (time.unixEpoch <= Sample.now)%Z
  /\ credentialInvariant
       (auth_oauth
          (TryAuthenticate
             (svc := Sample.services (inr (Sample.token "tok" (-60)))
                       (inr Sample.listing))
             Sample.now (Sample.authenticated Sample.now))).
Proof.
  assert (Hinv : credentialInvariant (Sample.authenticated Sample.now))
    by (intros _; discriminate).
  assert (Hnow : (time.unixEpoch <= Sample.now)%Z)
    by (vm_compute; discriminate).
  split; [exact Hinv|]. split; [exact Hnow|].
  apply (credentialInvariant_preserved
           (svc := Sample.services (inr (Sample.token "tok" (-60)))
                     (inr Sample.listing))
           Sample.now (Sample.authenticated Sample.now) Hinv Hnow).
Defined.

(** C9, as stated, fails for a negative [expires_in], which the check
    against zero lets through: the token is set, and the expiry is the
    current time minus one second, not the current time plus a positive
    number of seconds. *)
Lemma TryAuthenticate_positive_expiry_counterexample :
  let out :=
    TryAuthenticate
      (svc := Sample.services (inr (Sample.token "tok" (-1)))
                (inr Sample.listing))
      Sample.now Sample.credential in
  credentialInvariant Sample.credential
  /\ ~ ((RedditOauth.AccessToken (auth_oauth out)
         = RedditOauth.AccessToken Sample.credential
         /\ RedditOauth.ExpiresAt (auth_oauth out)
            = RedditOauth.ExpiresAt Sample.credential)
        \/ (RedditOauth.AccessToken (auth_oauth out) <> ""
            /\ exists expiresIn : Z,
                (0 < expiresIn)%Z
                /\ RedditOauth.ExpiresAt (auth_oauth out)
                   = (Sample.now + expiresIn * time.Second)%Z)).
Proof.
  cbv zeta. split; [intros H; now elim H|].
  intros [[Htok _]|[_ [n [Hpos Hexp]]]].
  - vm_compute in Htok. discriminate.
  - assert (E : RedditOauth.ExpiresAt
                  (auth_oauth
                     (TryAuthenticate
                        (svc := Sample.services (inr (Sample.token "tok" (-1)))
                                  (inr Sample.listing))
                        Sample.now Sample.credential))
                = (Sample.now - time.Second)%Z) by (vm_compute; reflexivity).
    rewrite E in Hexp. unfold time.Second in Hexp. lia.
Qed.

(** ** The listing *)

Lemma Forall2_map_r {A B : Type} (P : A -> B -> Prop) (f : A -> B) (l : list A) :
  (forall x, In x l -> P x (f x)) -> Forall2 P l (map f l).
Proof.
  induction l as [|x l IH]; intros H; simpl; constructor.
  - apply H. now left.
  - apply IH. intros y Hy. apply H. now right.
Qed.

Section Listing.

Context {svc : Services}.

Variables commentsUrlTemplate subreddit : string.
Variable showFlairs : bool.

(** The loop appends, in the order of the listing, the post of every entry
    that is neither stickied nor pinned. *)
Lemma normalizeLoop_map_filter (children : list childJson.t) :
  forall posts : ForumPosts,
    normalizeLoop commentsUrlTemplate subreddit showFlairs children posts
    = (posts
       ++ map (fun child =>
                 normalizePost commentsUrlTemplate subreddit showFlairs
                   (childJson.Data child))
            (filter kept children))%list.
Proof.
  induction children as [|child children IH]; intros posts; simpl.
  - now rewrite app_nil_r.
  - unfold kept at 1.
    destruct (postJson.Stickied (childJson.Data child)
              || postJson.Pinned (childJson.Data child)); simpl.
    + apply IH.
    + rewrite IH, <- app_assoc. reflexivity.
Qed.

Variables now_check now_auth : time.Time.
Variables sort topPeriod search requestUrlTemplate : string.
Variable oauth : option RedditOauth.t.

(** The posts of a fetch whose listing request has given a listing. *)
Lemma FetchSubredditPosts_posts (responseJson : subredditResponseJson.t) :
  listing_result
    (requestListing now_check now_auth subreddit sort topPeriod search
       requestUrlTemplate oauth)
  = inr responseJson ->
  fetch_posts
    (FetchSubredditPosts now_check now_auth subreddit sort topPeriod search
       commentsUrlTemplate requestUrlTemplate showFlairs oauth)
  = map (fun child =>
           normalizePost commentsUrlTemplate subreddit showFlairs
             (childJson.Data child))
      (filter kept (subredditResponseJson.Children responseJson)).
Proof.
  intros Hl. unfold FetchSubredditPosts. rewrite Hl.
  destruct (subredditResponseJson.Children responseJson) as [|child children];
    [reflexivity|].
  cbn [List.length Nat.eqb fetch_posts].
  now rewrite normalizeLoop_map_filter.
Qed.

(** A fetch whose listing request has failed returns the error and no
    posts. *)
Lemma FetchSubredditPosts_failed (err : error) :
  listing_result
    (requestListing now_check now_auth subreddit sort topPeriod search
       requestUrlTemplate oauth)
  = inl err ->
  fetch_posts
    (FetchSubredditPosts now_check now_auth subreddit sort topPeriod search
       commentsUrlTemplate requestUrlTemplate showFlairs oauth) = []
  /\ fetch_err
       (FetchSubredditPosts now_check now_auth subreddit sort topPeriod search
          commentsUrlTemplate requestUrlTemplate showFlairs oauth) = Some err.
Proof.
  intros Hl. unfold FetchSubredditPosts. now rewrite Hl.
Qed.

(** What the posts of a fetch have in common with the entries they come
    from: a property of the loop body holds of every pair. *)
Lemma FetchSubredditPosts_Forall2
    (P : childJson.t -> ForumPost.t -> Prop)
    (responseJson : subredditResponseJson.t) :
  (forall child,
      P child
        (normalizePost commentsUrlTemplate subreddit showFlairs
           (childJson.Data child))) ->
  listing_result
    (requestListing now_check now_auth subreddit sort topPeriod search
       requestUrlTemplate oauth)
  = inr responseJson ->
  Forall2 P
    (filter kept (subredditResponseJson.Children responseJson))
    (fetch_posts
       (FetchSubredditPosts now_check now_auth subreddit sort topPeriod search
          commentsUrlTemplate requestUrlTemplate showFlairs oauth)).
Proof.
  intros HP Hl. rewrite (FetchSubredditPosts_posts _ Hl).
  apply Forall2_map_r. intros child _. apply HP.
Qed.

(** The target of the post of an entry without parents. *)
Lemma normalizePost_TargetUrl_plain (post : postJson.t) :
  postJson.ParentList post = [] ->
  ForumPost.TargetUrl
    (normalizePost commentsUrlTemplate subreddit showFlairs post)
  = if postJson.IsSelf post then "" else postJson.Url post.
Proof.
  intros Hp. unfold normalizePost. rewrite Hp.
  destruct (negb (postJson.Thumbnail post =? "") && _ && _ && _);
    destruct (postJson.IsSelf post);
    destruct (showFlairs && _); reflexivity.
Qed.

(** The three fields the crosspost pass assigns. *)
Lemma normalizePost_crosspost (post : postJson.t)
    (parent0 : parentJson.t) (rest : list parentJson.t) :
  postJson.ParentList post = parent0 :: rest ->
  ForumPost.IsCrosspost
    (normalizePost commentsUrlTemplate subreddit showFlairs post) = true
  /\ ForumPost.TargetUrlDomain
       (normalizePost commentsUrlTemplate subreddit showFlairs post)
     = "r/" ++ parentJson.Subreddit parent0
  /\ ForumPost.TargetUrl
       (normalizePost commentsUrlTemplate subreddit showFlairs post)
     = if commentsUrlTemplate =? "" then
         "https://www.reddit.com" ++ parentJson.Permalink parent0
       else
         templateRedditCommentsURL commentsUrlTemplate
           (parentJson.Subreddit parent0) (parentJson.Id parent0)
           (parentJson.Permalink parent0).
Proof.
  intros Hp. unfold normalizePost. rewrite Hp.
  destruct (commentsUrlTemplate =? ""); auto.
Qed.

(** The thumbnail of a post. *)
Lemma normalizePost_ThumbnailUrl (post : postJson.t) :
  ForumPost.ThumbnailUrl
    (normalizePost commentsUrlTemplate subreddit showFlairs post)
  = if negb (postJson.Thumbnail post =? "")
       && negb (postJson.Thumbnail post =? "self")
       && negb (postJson.Thumbnail post =? "default")
       && negb (postJson.Thumbnail post =? "nsfw")
    then html_UnescapeString (postJson.Thumbnail post)
    else "".
Proof.
  unfold normalizePost.
  destruct (negb (postJson.Thumbnail post =? "") && _ && _ && _);
    destruct (negb (postJson.IsSelf post));
    destruct (showFlairs && _);
    destruct (postJson.ParentList post);
    destruct (commentsUrlTemplate =? ""); reflexivity.
Qed.

(** C4. No post is produced for a stickied or pinned entry: the posts of
    a fetch are, in the order of the listing, the posts of exactly the
    entries that are neither stickied nor pinned. *)
Theorem stickied_and_pinned_entries_are_skipped :
  forall responseJson : subredditResponseJson.t,
    listing_result
      (requestListing now_check now_auth subreddit sort topPeriod search
         requestUrlTemplate oauth)
    = inr responseJson ->
    let out :=
      FetchSubredditPosts now_check now_auth subreddit sort topPeriod search
        commentsUrlTemplate requestUrlTemplate showFlairs oauth in
    let entries := subredditResponseJson.Children responseJson in
    fetch_posts out
    = map (fun child =>
             normalizePost commentsUrlTemplate subreddit showFlairs
               (childJson.Data child))
        (filter kept entries)
    /\ List.length (fetch_posts out) = List.length (filter kept entries)
    /\ (forall child,
           In child (filter kept entries) <->
           In child entries
           /\ postJson.Stickied (childJson.Data child) = false
           /\ postJson.Pinned (childJson.Data child) = false)
    /\ (entries <> [] -> fetch_err out = None).
Proof.
  intros responseJson Hl out entries. subst out entries.
  split; [now apply FetchSubredditPosts_posts|].
  split; [rewrite (FetchSubredditPosts_posts _ Hl); apply length_map|].
  split.
  - intros child. rewrite filter_In. unfold kept.
    rewrite negb_true_iff, orb_false_iff. tauto.
  - intros Hne. unfold FetchSubredditPosts. rewrite Hl.
    destruct (subredditResponseJson.Children responseJson);
      [congruence | reflexivity].
Qed.

(** C1. The post of an entry with one or more crosspost parents is marked
    as a crosspost, its domain label is [r/] followed by the subreddit of
    the first parent, and its target URL is computed from the id,
    subreddit and permalink of the first parent: without a comments URL
    template it is [https://www.reddit.com] followed by the permalink;
    with one it is the template in which [{SUBREDDIT}], [{POST-ID}] and
    [{POST-PATH}] have been replaced, in this order, by the subreddit, the
    id and the permalink without its leading slashes, which on a
    well-formed template and for a subreddit and an id without opening
    braces is every placeholder replaced by its value.  Neither the URL of
    the entry itself nor any further parent takes part: two entries with
    the same first parent get the same three fields. *)
Theorem crosspost_override_uses_first_parent :
  forall responseJson : subredditResponseJson.t,
    listing_result
      (requestListing now_check now_auth subreddit sort topPeriod search
         requestUrlTemplate oauth)
    = inr responseJson ->
    Forall2
      (fun child forumPost =>
         forall (parent0 : parentJson.t) (rest : list parentJson.t),
           postJson.ParentList (childJson.Data child) = parent0 :: rest ->
           ForumPost.IsCrosspost forumPost = true
           /\ ForumPost.TargetUrlDomain forumPost
              = "r/" ++ parentJson.Subreddit parent0
           /\ ForumPost.TargetUrl forumPost
              = (if commentsUrlTemplate =? "" then
                   "https://www.reddit.com" ++ parentJson.Permalink parent0
                 else
                   strings.ReplaceAll
                     (strings.ReplaceAll
                        (strings.ReplaceAll commentsUrlTemplate "{SUBREDDIT}"
                           (parentJson.Subreddit parent0))
                        "{POST-ID}" (parentJson.Id parent0))
                     "{POST-PATH}"
                     (strings.TrimLeft (parentJson.Permalink parent0) "/"))
           /\ (forall gs : list segment,
                  commentsUrlTemplate = render gs ->
                  commentsUrlTemplate <> "" ->
                  wellFormed gs = true ->
                  braceFree (parentJson.Subreddit parent0) = true ->
                  braceFree (parentJson.Id parent0) = true ->
                  ForumPost.TargetUrl forumPost
                  = substitute (parentJson.Subreddit parent0)
                      (parentJson.Id parent0) (parentJson.Permalink parent0)
                      gs)
           /\ forall (other : postJson.t) (rest' : list parentJson.t),
               postJson.ParentList other = parent0 :: rest' ->
               let forumPost' :=
                 normalizePost commentsUrlTemplate subreddit showFlairs other in
               ForumPost.IsCrosspost forumPost'
               = ForumPost.IsCrosspost forumPost
               /\ ForumPost.TargetUrlDomain forumPost'
                  = ForumPost.TargetUrlDomain forumPost
               /\ ForumPost.TargetUrl forumPost'
                  = ForumPost.TargetUrl forumPost)
      (filter kept (subredditResponseJson.Children responseJson))
      (fetch_posts
         (FetchSubredditPosts now_check now_auth subreddit sort topPeriod
            search commentsUrlTemplate requestUrlTemplate showFlairs oauth)).
Proof.
  intros responseJson. apply FetchSubredditPosts_Forall2.
  intros child parent0 rest Hp.
  destruct (normalizePost_crosspost _ _ _ Hp) as [Hc [Hd Ht]].
  unfold templateRedditCommentsURL in Ht.
  split; [exact Hc|]. split; [exact Hd|]. split; [exact Ht|]. split.
  - intros gs Hgs Hne Hwf Hsub Hid. rewrite Ht.
    apply String.eqb_neq in Hne. rewrite Hne, Hgs.
    now apply three_passes_substitute.
  - intros other rest' Hother. cbv zeta.
    destruct (normalizePost_crosspost _ _ _ Hother) as [Hc' [Hd' Ht']].
    unfold templateRedditCommentsURL in Ht'.
    rewrite Hc, Hd, Ht, Hc', Hd', Ht'. auto.
Qed.

(** C2 (amended). The target URL of a post is unset exactly when the entry
    has no crosspost parent and is a self post or has an empty link URL,
    or when it has a parent and the URL computed from the first parent is
    empty, which takes a comments URL template; without a parent, the
    target URL of a post that is not a self post is the link URL of the
    entry, and that of a self post is unset. *)
Theorem target_url_unset_cases :
  forall responseJson : subredditResponseJson.t,
    listing_result
      (requestListing now_check now_auth subreddit sort topPeriod search
         requestUrlTemplate oauth)
    = inr responseJson ->
    Forall2
      (fun child forumPost =>
         let post := childJson.Data child in
         (ForumPost.TargetUrl forumPost = "" <->
          (postJson.ParentList post = []
           /\ (postJson.IsSelf post = true \/ postJson.Url post = ""))
          \/ (exists parent0 rest,
                 postJson.ParentList post = parent0 :: rest
                 /\ commentsUrlTemplate <> ""
                 /\ templateRedditCommentsURL commentsUrlTemplate
                      (parentJson.Subreddit parent0) (parentJson.Id parent0)
                      (parentJson.Permalink parent0) = ""))
         /\ (postJson.IsSelf post = false ->
             postJson.ParentList post = [] ->
             ForumPost.TargetUrl forumPost = postJson.Url post)
         /\ (postJson.IsSelf post = true ->
             postJson.ParentList post = [] ->
             ForumPost.TargetUrl forumPost = ""))
      (filter kept (subredditResponseJson.Children responseJson))
      (fetch_posts
         (FetchSubredditPosts now_check now_auth subreddit sort topPeriod
            search commentsUrlTemplate requestUrlTemplate showFlairs oauth)).
Proof.
  intros responseJson. apply FetchSubredditPosts_Forall2.
  intros child. cbv zeta.
  destruct (postJson.ParentList (childJson.Data child))
    as [|parent0 rest] eqn:Hp.
  - rewrite (normalizePost_TargetUrl_plain _ Hp).
    destruct (postJson.IsSelf (childJson.Data child)).
    + split; [|split; [discriminate | reflexivity]].
      split; [intros _; left; auto | reflexivity].
    + split; [|split; [reflexivity | discriminate]].
      split.
      * intros H. left. auto.
      * intros [[_ [H|H]]|[p [r [H _]]]]; congruence.
  - destruct (normalizePost_crosspost _ _ _ Hp) as [_ [_ Ht]].
    rewrite Ht.
    split; [|split; discriminate].
    destruct (String.eqb_spec commentsUrlTemplate "") as [He|He].
    + split; [discriminate|].
      intros [[H _]|[p [r [_ [H _]]]]]; congruence.
    + split.
      * intros H. right. exists parent0, rest. auto.
      * intros [[H _]|[p [r [H [_ H']]]]]; [discriminate|].
        now injection H as <- <-.
Qed.

(** C3. The thumbnail of a post is set exactly when the raw thumbnail of
    the entry is not empty and is none of [self], [default] and [nsfw];
    when set, it is the raw value with its HTML entities unescaped.  Go's
    [html.UnescapeString] gives the empty string for the empty string
    only. *)
Theorem thumbnail_set_iff_not_placeholder :
  (forall s, html_UnescapeString s = "" -> s = "") ->
  forall responseJson : subredditResponseJson.t,
    listing_result
      (requestListing now_check now_auth subreddit sort topPeriod search
         requestUrlTemplate oauth)
    = inr responseJson ->
    Forall2
      (fun child forumPost =>
         let raw := postJson.Thumbnail (childJson.Data child) in
         (ForumPost.ThumbnailUrl forumPost <> "" <->
          raw <> "" /\ raw <> "self" /\ raw <> "default" /\ raw <> "nsfw")
         /\ (ForumPost.ThumbnailUrl forumPost <> "" ->
             ForumPost.ThumbnailUrl forumPost = html_UnescapeString raw))
      (filter kept (subredditResponseJson.Children responseJson))
      (fetch_posts
         (FetchSubredditPosts now_check now_auth subreddit sort topPeriod
            search commentsUrlTemplate requestUrlTemplate showFlairs oauth)).
Proof.
  intros Hunescape responseJson. apply FetchSubredditPosts_Forall2.
  intros child. cbv zeta. rewrite normalizePost_ThumbnailUrl.
  destruct (String.eqb_spec (postJson.Thumbnail (childJson.Data child)) "");
    destruct (String.eqb_spec (postJson.Thumbnail (childJson.Data child)) "self");
    destruct (String.eqb_spec (postJson.Thumbnail (childJson.Data child))
                "default");
    destruct (String.eqb_spec (postJson.Thumbnail (childJson.Data child)) "nsfw");
    simpl; split; try tauto; try congruence.
  split; [tauto|]. intros _ H. apply Hunescape in H. tauto.
Qed.

(** C6. A fetch whose listing request has given a listing without entries
    fails with the error [no posts found], an error of reddit.go's own and
    not one handed back by the transport or the decoder, and returns no
    posts. *)
Theorem empty_listing_is_an_error :
  forall responseJson : subredditResponseJson.t,
    listing_result
      (requestListing now_check now_auth subreddit sort topPeriod search
         requestUrlTemplate oauth)
    = inr responseJson ->
    subredditResponseJson.Children responseJson = [] ->
    let out :=
      FetchSubredditPosts now_check now_auth subreddit sort topPeriod search
        commentsUrlTemplate requestUrlTemplate showFlairs oauth in
    fetch_err out = Some (errors_New "no posts found")
    /\ fetch_posts out = []
    /\ forall text, fetch_err out <> Some (serviceError text).
Proof.
  intros responseJson Hl Hempty out. subst out.
  unfold FetchSubredditPosts. rewrite Hl, Hempty. simpl.
  repeat split. discriminate.
Qed.

End Listing.

(** ** The request *)

Section Request.

Context {svc : Services}.

(** The encoded query: [q], [sort] and [t], in this order, the order of
    the keys. *)
Lemma Encode_buildQuery (subreddit sort topPeriod search : string) :
  url.Encode (buildQuery subreddit sort topPeriod search)
  = if search =? "" then
      if sort =? "top" then "t=" ++ url.QueryEscape topPeriod else ""
    else
      "q=" ++ url.QueryEscape (search ++ " subreddit:" ++ subreddit)
      ++ "&sort=" ++ url.QueryEscape sort
      ++ (if sort =? "top" then "&t=" ++ url.QueryEscape topPeriod else "").
Proof.
  unfold buildQuery, url.Encode.
  destruct (search =? ""); destruct (sort =? "top"); simpl;
    rewrite ?append_assoc, ?append_empty_r; reflexivity.
Qed.

(** The requests of [TryAuthenticate] are sent with [POST]. *)
Lemma TryAuthenticate_sent_POST (now : time.Time) (o : RedditOauth.t)
    (request : http.Request) :
  In request (auth_sent (TryAuthenticate now o)) ->
  http.Method request = "POST".
Proof.
  destruct (ShouldAuthenticate o) eqn:Hcfg.
  - rewrite (TryAuthenticate_configured now o Hcfg).
    destruct (http_NewRequest_err _ _); [intros []|].
    destruct (decodeJsonFromRequest_token _) as [text|response].
    { intros [<-|[]]. reflexivity. }
    destruct (_ =? ""); [intros [<-|[]]; reflexivity|].
    destruct (_ =? 0)%Z; intros [<-|[]]; reflexivity.
  - rewrite (TryAuthenticate_unconfigured now o Hcfg). intros [].
Qed.

(** Setting the headers leaves the method and the URL alone. *)
Lemma setRequestHeaders_URL (use : bool) (oauth : option RedditOauth.t)
    (request : http.Request) :
  http.URL (setRequestHeaders use oauth request) = http.URL request
  /\ http.Method (setRequestHeaders use oauth request) = http.Method request.
Proof.
  unfold setRequestHeaders.
  destruct use; [destruct oauth|]; split; reflexivity.
Qed.

(** The base URL follows [useOauth]. *)
Lemma selectHost_baseRequestUrl (now_check now_auth : time.Time)
    (oauth : option RedditOauth.t) :
  host_baseRequestUrl (selectHost now_check now_auth oauth)
  = if useOauth oauth then "https://oauth.reddit.com" else "https://reddit.com".
Proof.
  unfold selectHost, useOauth. destruct oauth as [o|]; [|reflexivity].
  destruct (negb _); [|reflexivity].
  destruct (ShouldReauthenticate _ _); reflexivity.
Qed.

Lemma selectHost_sent_POST (now_check now_auth : time.Time)
    (oauth : option RedditOauth.t) (request : http.Request) :
  In request (host_sent (selectHost now_check now_auth oauth)) ->
  http.Method request = "POST".
Proof.
  unfold selectHost. destruct oauth as [o|]; [|intros []].
  destruct (negb _); [|intros []].
  destruct (ShouldReauthenticate _ _); [|intros []].
  apply TryAuthenticate_sent_POST.
Qed.

(** C7. The query has [q], the search term followed by [" subreddit:"] and
    the subreddit, and [sort] when there is a search term, and [t], the top
    period, whenever the sort is [top]; the URL is the search listing with
    this query when there is a search term and [/r/<subreddit>/<sort>.json]
    with it otherwise; with a request URL template, the final URL is the
    template with every [{REQUEST-URL}] replaced by that URL.  It is the
    URL of the [GET] request of every fetch. *)
Theorem request_url_construction :
  forall (now_check now_auth : time.Time)
    (subreddit sort topPeriod search commentsUrlTemplate requestUrlTemplate : string)
    (showFlairs : bool) (oauth : option RedditOauth.t),
    let query := buildQuery subreddit sort topPeriod search in
    let base :=
      if useOauth oauth then "https://oauth.reddit.com"
      else "https://reddit.com" in
    let constructed :=
      if search =? "" then
        base ++ "/r/" ++ subreddit ++ "/" ++ sort ++ ".json?" ++ url.Encode query
      else base ++ "/search.json?" ++ url.Encode query in
    let final := buildRequestUrl base subreddit sort topPeriod search
                   requestUrlTemplate in
    let out :=
      FetchSubredditPosts now_check now_auth subreddit sort topPeriod search
        commentsUrlTemplate requestUrlTemplate showFlairs oauth in
    (search <> "" ->
     url.Get query "q" = search ++ " subreddit:" ++ subreddit
     /\ url.Get query "sort" = sort)
    /\ (search = "" -> url.Has query "q" = false /\ url.Has query "sort" = false)
    /\ url.Has query "t" = (sort =? "top")
    /\ (sort = "top" -> url.lookup query "t" = [topPeriod])
    /\ url.Encode query
       = (if search =? "" then
            if sort =? "top" then "t=" ++ url.QueryEscape topPeriod else ""
          else
            "q=" ++ url.QueryEscape (search ++ " subreddit:" ++ subreddit)
            ++ "&sort=" ++ url.QueryEscape sort
            ++ (if sort =? "top" then "&t=" ++ url.QueryEscape topPeriod
                else ""))
    /\ (requestUrlTemplate = "" -> final = constructed)
    /\ (requestUrlTemplate <> "" ->
        final = strings.ReplaceAll requestUrlTemplate "{REQUEST-URL}" constructed
        /\ Replaced "{REQUEST-URL}" constructed requestUrlTemplate final)
    /\ (forall request,
           In request (fetch_sent out) ->
           http.Method request = "GET" ->
           http.URL request = final)
    /\ (forall responseJson,
           listing_result
             (requestListing now_check now_auth subreddit sort topPeriod search
                requestUrlTemplate oauth)
           = inr responseJson ->
           exists request,
             In request (fetch_sent out)
             /\ http.Method request = "GET"
             /\ http.URL request = final
             /\ decodeJsonFromRequest_listing request = inr responseJson).
Proof.
  intros now_check now_auth subreddit sort topPeriod search
    commentsUrlTemplate requestUrlTemplate showFlairs oauth
    query base constructed final out.
  assert (Hfinal : final
                   = if requestUrlTemplate =? "" then constructed
                     else strings.ReplaceAll requestUrlTemplate
                            "{REQUEST-URL}" constructed).
  { subst final constructed query. unfold buildRequestUrl.
    destruct (requestUrlTemplate =? ""); destruct (search =? "");
      reflexivity. }
  assert (Hsent : fetch_sent out
                  = listing_sent
                      (requestListing now_check now_auth subreddit sort
                         topPeriod search requestUrlTemplate oauth)).
  { subst out. unfold FetchSubredditPosts.
    destruct (listing_result _); [reflexivity|].
    destruct (Nat.eqb _ _); reflexivity. }
  split; [|split; [|split; [|split; [|split; [|split; [|split; [|split]]]]]]].
  - intros Hs. apply String.eqb_neq in Hs. subst query. unfold buildQuery.
    rewrite Hs. destruct (sort =? "top"); simpl; auto.
  - intros ->. subst query. unfold buildQuery. simpl.
    destruct (sort =? "top"); simpl; auto.
  - subst query. unfold buildQuery.
    destruct (search =? ""); destruct (sort =? "top"); reflexivity.
  - intros ->. subst query. unfold buildQuery.
    destruct (search =? ""); reflexivity.
  - apply Encode_buildQuery.
  - intros ->. exact Hfinal.
  - intros Hne. apply String.eqb_neq in Hne. rewrite Hne in Hfinal.
    split; [exact Hfinal|]. rewrite Hfinal.
    apply ReplaceAll_Replaced. discriminate.
  - intros request Hin Hget. rewrite Hsent in Hin.
    unfold requestListing in Hin.
    rewrite selectHost_baseRequestUrl in Hin. fold base final in Hin.
    destruct (host_err _).
    { apply selectHost_sent_POST in Hin. congruence. }
    unfold http_NewRequest in Hin.
    destruct (http_NewRequest_err "GET" final).
    { apply selectHost_sent_POST in Hin. congruence. }
    cbn [listing_sent] in Hin. apply in_app_or in Hin.
    destruct Hin as [Hin|[<-|[]]].
    + apply selectHost_sent_POST in Hin. congruence.
    + now rewrite (proj1 (setRequestHeaders_URL _ _ _)).
  - intros responseJson Hl. rewrite Hsent.
    unfold requestListing in Hl |- *.
    rewrite selectHost_baseRequestUrl in Hl |- *. fold base final in Hl |- *.
    destruct (host_err _); [discriminate|].
    unfold http_NewRequest in Hl |- *.
    destruct (http_NewRequest_err "GET" final); [discriminate|].
    cbn [listing_result listing_sent] in Hl |- *.
    match goal with
    | |- context [(_ ++ [?r])%list] => exists r
    end.
    split; [apply in_or_app; right; now left|].
    rewrite (proj1 (setRequestHeaders_URL _ _ _)),
      (proj2 (setRequestHeaders_URL _ _ _)).
    repeat split.
    destruct (decodeJsonFromRequest_listing _); congruence.
Qed.

End Request.

(** *** Runs of the fetch *)

(** The scenarios of the specification. *)
Example top_of_the_week :
  buildRequestUrl "https://reddit.com" "golang" "top" "week" "" ""
  = "https://reddit.com/r/golang/top.json?t=week".
Proof. reflexivity. Qed.

Example search_rust_in_programming :
  url.Get (buildQuery "programming" "new" "day" "rust") "q"
  = "rust subreddit:programming"
  /\ url.Get (buildQuery "programming" "new" "day" "rust") "sort" = "new"
  /\ buildRequestUrl "https://reddit.com" "programming" "new" "day" "rust"
       "https://proxy.example/?url={REQUEST-URL}"
     = "https://proxy.example/?url=https://reddit.com/search.json?q=rust+subreddit%3Aprogramming&sort=new".
Proof. repeat split. Qed.

(** A comments URL template can give an empty URL. *)
Example templateRedditCommentsURL_empty :
  templateRedditCommentsURL "{POST-ID}" "rust" "" "/r/rust/comments//" = "".
Proof. reflexivity. Qed.

Example templateRedditCommentsURL_old_reddit :
  templateRedditCommentsURL
    "https://old.reddit.com/r/{SUBREDDIT}/comments/{POST-ID} ({POST-PATH})"
    "rust" "abc" "//r/rust/comments/abc/t/"
  = "https://old.reddit.com/r/rust/comments/abc (r/rust/comments/abc/t/)".
Proof. reflexivity. Qed.

Example one_link_post_with_default_thumbnail :
  map (fun p => (ForumPost.TargetUrl p, ForumPost.ThumbnailUrl p))
    (fetch_posts
       (FetchSubredditPosts
          (svc := Sample.services (inr (Sample.token "tok" 3600))
                    (inr {| subredditResponseJson.Children :=
                              [Sample.post "b2" "Go" "http://x" "default"
                                 false false false []] |}))
          Sample.now Sample.now "golang" "hot" "day" "" "" "" false None))
  = [("http://x", "")].
Proof. reflexivity. Qed.

Example expired_token_is_renewed_before_the_listing :
  map http.Method
    (fetch_sent
       (FetchSubredditPosts
          (svc := Sample.services (inr (Sample.token "tok" 3600))
                    (inr Sample.listing))
          Sample.now Sample.now "golang" "hot" "day" "" "" "" false
          (Some (Sample.authenticated Sample.now))))
  = ["POST"; "GET"].
Proof. reflexivity. Qed.

Lemma stickied_and_pinned_entries_are_skipped_witness :
  listing_result
    (requestListing
       (svc := Sample.services (inr (Sample.token "tok" 3600))
                 (inr Sample.listing))
       Sample.now Sample.now "golang" "hot" "day" "" "" None)
  = inr Sample.listing
  /\ List.length
       (fetch_posts
          (FetchSubredditPosts
             (svc := Sample.services (inr (Sample.token "tok" 3600))
                       (inr Sample.listing))
             Sample.now Sample.now "golang" "hot" "day" "" "" "" true None))
     = 3.
Proof.
  split; [reflexivity|].
  destruct (stickied_and_pinned_entries_are_skipped
              (svc := Sample.services (inr (Sample.token "tok" 3600))
                        (inr Sample.listing))
              "" "golang" true Sample.now Sample.now "hot" "day" "" "" None
              Sample.listing eq_refl) as [_ [H _]].
  exact H.
Defined.

(** The crosspost of the sample listing, with a template. *)
Lemma crosspost_override_uses_first_parent_witness :
  listing_result
    (requestListing
       (svc := Sample.services (inr (Sample.token "tok" 3600))
                 (inr Sample.listing))
       Sample.now Sample.now "golang" "hot" "day" "" "" None)
  = inr Sample.listing
  /\ exists forumPost,
      nth_error
        (fetch_posts
           (FetchSubredditPosts
              (svc := Sample.services (inr (Sample.token "tok" 3600))
                        (inr Sample.listing))
              Sample.now Sample.now "golang" "hot" "day" ""
              "https://old.reddit.com/r/{SUBREDDIT}/comments/{POST-ID}/" ""
              true None))
        2
      = Some forumPost
      /\ ForumPost.IsCrosspost forumPost = true
      /\ ForumPost.TargetUrlDomain forumPost = "r/programming"
      /\ ForumPost.TargetUrl forumPost
         = "https://old.reddit.com/r/programming/comments/p1/".
Proof.
  split; [reflexivity|].
  eexists. split; [reflexivity|].
  pose proof
    (Forall2_nth_error _ _ _
       (crosspost_override_uses_first_parent
          (svc := Sample.services (inr (Sample.token "tok" 3600))
                    (inr Sample.listing))
          "https://old.reddit.com/r/{SUBREDDIT}/comments/{POST-ID}/"
          "golang" true Sample.now Sample.now "hot" "day" "" "" None
          Sample.listing eq_refl)
       2 _ _ eq_refl eq_refl
       (Sample.parent "p1" "programming") [Sample.parent "p2" "rust"] eq_refl)
    as [Hc [Hd [_ [Hs _]]]].
  split; [exact Hc|]. split; [exact Hd|].
  exact (Hs [Literal "https://old.reddit.com/r/"; SUBREDDIT;
             Literal "/comments/"; POST_ID; Literal "/"]
           eq_refl ltac:(discriminate) eq_refl eq_refl eq_refl).
Defined.

(** C2, as stated, fails for an entry that is not a self post and has an
    empty link URL: its target URL is unset although [is_self] is false. *)
Lemma target_url_unset_iff_counterexample :
  listing_result
    (requestListing
       (svc := Sample.services (inr (Sample.token "tok" 3600))
                 (inr Sample.linkless))
       Sample.now Sample.now "golang" "hot" "day" "" "" None)
  = inr Sample.linkless
  /\ ~ Forall2
         (fun child forumPost =>
            ForumPost.TargetUrl forumPost = "" <->
            postJson.IsSelf (childJson.Data child) = true
            /\ postJson.ParentList (childJson.Data child) = [])
         (filter kept (subredditResponseJson.Children Sample.linkless))
         (fetch_posts
            (FetchSubredditPosts
               (svc := Sample.services (inr (Sample.token "tok" 3600))
                         (inr Sample.linkless))
               Sample.now Sample.now "golang" "hot" "day" "" "" "" true None)).
Proof.
  split; [reflexivity|].
  intros H. cbv in H.
  inversion H as [|child forumPost children posts [Hhead _] _ Hc Hp].
  destruct (Hhead eq_refl) as [Hself _]. discriminate.
Qed.

Lemma target_url_unset_cases_witness :
  listing_result
    (requestListing
       (svc := Sample.services (inr (Sample.token "tok" 3600))
                 (inr Sample.listing))
       Sample.now Sample.now "golang" "hot" "day" "" "" None)
  = inr Sample.listing
  /\ Forall2
       (fun child forumPost =>
          postJson.IsSelf (childJson.Data child) = false ->
          postJson.ParentList (childJson.Data child) = [] ->
          ForumPost.TargetUrl forumPost = postJson.Url (childJson.Data child))
       (filter kept (subredditResponseJson.Children Sample.listing))
       (fetch_posts
          (FetchSubredditPosts
             (svc := Sample.services (inr (Sample.token "tok" 3600))
                       (inr Sample.listing))
             Sample.now Sample.now "golang" "hot" "day" "" "" "" true None)).
Proof.
  split; [reflexivity|].
  eapply Forall2_impl;
    [|apply (target_url_unset_cases
               (svc := Sample.services (inr (Sample.token "tok" 3600))
                         (inr Sample.listing))
               "" "golang" true Sample.now Sample.now "hot" "day" "" "" None
               Sample.listing eq_refl)].
  intros child forumPost H. exact (proj1 (proj2 H)).
Defined.

Lemma thumbnail_set_iff_not_placeholder_witness :
  (forall s, Sample.unescape s = "" -> s = "")
  /\ listing_result
       (requestListing
          (svc := Sample.services (inr (Sample.token "tok" 3600))
                    (inr Sample.listing))
          Sample.now Sample.now "golang" "hot" "day" "" "" None)
     = inr Sample.listing
  /\ Forall2
       (fun child forumPost =>
          ForumPost.ThumbnailUrl forumPost <> "" ->
          ForumPost.ThumbnailUrl forumPost
          = Sample.unescape (postJson.Thumbnail (childJson.Data child)))
       (filter kept (subredditResponseJson.Children Sample.listing))
       (fetch_posts
          (FetchSubredditPosts
             (svc := Sample.services (inr (Sample.token "tok" 3600))
                       (inr Sample.listing))
             Sample.now Sample.now "golang" "hot" "day" "" "" "" true None)).
Proof.
  split; [exact Sample_unescape_nonempty|]. split; [reflexivity|].
  eapply Forall2_impl;
    [|apply (thumbnail_set_iff_not_placeholder
               (svc := Sample.services (inr (Sample.token "tok" 3600))
                         (inr Sample.listing))
               "" "golang" true Sample.now Sample.now "hot" "day" "" "" None
               Sample_unescape_nonempty Sample.listing eq_refl)].
  intros child forumPost H. exact (proj2 H).
Defined.

Lemma empty_listing_is_an_error_witness :
  listing_result
    (requestListing
       (svc := Sample.services (inr (Sample.token "tok" 3600))
                 (inr Sample.empty))
       Sample.now Sample.now "golang" "hot" "day" "" "" None)
  = inr Sample.empty
  /\ subredditResponseJson.Children Sample.empty = []
  /\ fetch_err
       (FetchSubredditPosts
          (svc := Sample.services (inr (Sample.token "tok" 3600))
                    (inr Sample.empty))
          Sample.now Sample.now "golang" "hot" "day" "" "" "" true None)
     = Some (errors_New "no posts found").
Proof.
  split; [reflexivity|]. split; [reflexivity|].
  apply (empty_listing_is_an_error
           (svc := Sample.services (inr (Sample.token "tok" 3600))
                     (inr Sample.empty))
           "" "golang" true Sample.now Sample.now "hot" "day" "" "" None
           Sample.empty eq_refl eq_refl).
Defined.

(** * Further properties of reddit.go *)

(** ** The comments URL template *)

(** X1. On a well-formed template (every opening brace starts one of the
    three placeholders), with a subreddit and a post id without opening
    braces, the three passes of [templateRedditCommentsURL] amount to
    replacing every placeholder by its value at once, the post path without
    its leading slashes. *)
Theorem templateRedditCommentsURL_substitutes :
  forall (gs : list segment) (subreddit postId postPath : string),
    wellFormed gs = true ->
    braceFree subreddit = true ->
    braceFree postId = true ->
    templateRedditCommentsURL (render gs) subreddit postId postPath
    = substitute subreddit postId postPath gs.
Proof.
  intros gs subreddit postId postPath Hwf Hsub Hid.
  unfold templateRedditCommentsURL.
  change "{SUBREDDIT}" with (segmentText SUBREDDIT).
  change "{POST-ID}" with (segmentText POST_ID).
  change "{POST-PATH}" with (segmentText POST_PATH).
  rewrite ReplaceAll_render by (discriminate || assumption).
  rewrite ReplaceAll_render
    by (discriminate || now apply wellFormed_replaceSegment).
  rewrite ReplaceAll_render
    by (discriminate || now repeat apply wellFormed_replaceSegment).
  apply render_substituted.
Qed.

Lemma templateRedditCommentsURL_substitutes_witness :
  wellFormed
    [Literal "https://old.reddit.com/r/"; SUBREDDIT; Literal "/comments/";
     POST_ID; Literal "/?path="; POST_PATH] = true
  /\ braceFree "golang" = true
  /\ braceFree "b2" = true
  /\ templateRedditCommentsURL
       "https://old.reddit.com/r/{SUBREDDIT}/comments/{POST-ID}/?path={POST-PATH}"
       "golang" "b2" "//r/golang/comments/b2/"
     = "https://old.reddit.com/r/golang/comments/b2/?path=r/golang/comments/b2/".
Proof.
  split; [reflexivity|]. split; [reflexivity|]. split; [reflexivity|].
  apply (templateRedditCommentsURL_substitutes
           [Literal "https://old.reddit.com/r/"; SUBREDDIT;
            Literal "/comments/"; POST_ID; Literal "/?path="; POST_PATH]
           "golang" "b2" "//r/golang/comments/b2/");
    reflexivity.
Defined.

(** The values are scanned by the later passes: a subreddit that holds a
    placeholder is substituted in turn. *)
Example templateRedditCommentsURL_rescans_values :
  templateRedditCommentsURL "/r/{SUBREDDIT}" "{POST-ID}" "b2" "" = "/r/b2".
Proof. reflexivity. Qed.

(** ** More on the authenticator *)

Section Authenticator.

Context {svc : Services}.

(** [TryAuthenticate] sends nothing or the one token request. *)
Lemma TryAuthenticate_sent (now : time.Time) (oauth : RedditOauth.t) :
  auth_sent (TryAuthenticate now oauth)
  = if ShouldAuthenticate oauth then
      match http_NewRequest_err "POST" tokenEndpoint with
      | Some _ => []
      | None => [tokenRequest oauth]
      end
    else [].
Proof.
  destruct (ShouldAuthenticate oauth) eqn:Hcfg.
  - rewrite (TryAuthenticate_configured now oauth Hcfg).
    destruct (http_NewRequest_err _ _); [reflexivity|].
    destruct (decodeJsonFromRequest_token _); [reflexivity|].
    destruct (_ =? ""); [reflexivity|].
    destruct (_ =? 0)%Z; reflexivity.
  - now rewrite (TryAuthenticate_unconfigured now oauth Hcfg).
Qed.

(** A call that returns an error leaves the credential as it was. *)
Lemma TryAuthenticate_error_unchanged (now : time.Time) (oauth : RedditOauth.t)
    (err : error) :
  auth_err (TryAuthenticate now oauth) = Some err ->
  auth_oauth (TryAuthenticate now oauth) = oauth.
Proof.
  destruct (ShouldAuthenticate oauth) eqn:Hcfg.
  - rewrite (TryAuthenticate_configured now oauth Hcfg).
    destruct (http_NewRequest_err _ _); [reflexivity|].
    destruct (decodeJsonFromRequest_token _); [reflexivity|].
    destruct (_ =? ""); [reflexivity|].
    destruct (_ =? 0)%Z; [reflexivity | discriminate].
  - now rewrite (TryAuthenticate_unconfigured now oauth Hcfg).
Qed.

(** The credential a call leaves is the one given, or that one with a new
    token and expiry. *)
Lemma TryAuthenticate_oauth (now : time.Time) (oauth : RedditOauth.t) :
  auth_oauth (TryAuthenticate now oauth) = oauth
  \/ exists token expiresAt,
      auth_oauth (TryAuthenticate now oauth) = setToken oauth token expiresAt.
Proof.
  destruct (ShouldAuthenticate oauth) eqn:Hcfg.
  - rewrite (TryAuthenticate_configured now oauth Hcfg).
    destruct (http_NewRequest_err _ _); [now left|].
    destruct (decodeJsonFromRequest_token _); [now left|].
    destruct (_ =? ""); [now left|].
    destruct (_ =? 0)%Z; [now left|].
    right. eexists. eexists. reflexivity.
  - rewrite (TryAuthenticate_unconfigured now oauth Hcfg). now left.
Qed.

Lemma sameIdentity_tokenRequest (a b : RedditOauth.t) :
  sameIdentity a b -> tokenRequest a = tokenRequest b.
Proof.
  intros [H1 [H2 [H3 [H4 _]]]]. unfold tokenRequest.
  now rewrite H1, H2, H3, H4.
Qed.

Lemma sameIdentity_ShouldAuthenticate (a b : RedditOauth.t) :
  sameIdentity a b -> ShouldAuthenticate a = ShouldAuthenticate b.
Proof.
  intros [H1 [H2 [H3 [H4 _]]]]. unfold ShouldAuthenticate.
  now rewrite H1, H2, H3, H4.
Qed.

Lemma sameIdentity_setToken (a b : RedditOauth.t) (token : string)
    (expiresAt : time.Time) :
  sameIdentity a b -> setToken a token expiresAt = setToken b token expiresAt.
Proof.
  intros [H1 [H2 [H3 [H4 H5]]]]. unfold setToken.
  now rewrite H1, H2, H3, H4, H5.
Qed.

(** X2. What [TryAuthenticate] puts on the wire: one [POST] to the token
    endpoint, with the user name and the password as they are in the body
    and the client id and secret as basic authentication, sent exactly
    when the credential is fully configured and the request can be built;
    nothing else is ever sent. *)
Theorem TryAuthenticate_token_request :
  forall (now : time.Time) (oauth : RedditOauth.t),
    let out := TryAuthenticate now oauth in
    (auth_sent out = [tokenRequest oauth] <->
     ShouldAuthenticate oauth = true
     /\ http_NewRequest_err "POST" tokenEndpoint = None)
    /\ (auth_sent out = [] \/ auth_sent out = [tokenRequest oauth])
    /\ http.Method (tokenRequest oauth) = "POST"
    /\ http.URL (tokenRequest oauth)
       = "https://www.reddit.com/api/v1/access_token"
    /\ http.Body (tokenRequest oauth)
       = Some ("grant_type=password&username=" ++ RedditOauth.Username oauth
               ++ "&password=" ++ RedditOauth.Password oauth)
    /\ http.Headers (tokenRequest oauth)
       = [("Authorization",
           ["Basic "
            ++ base64_EncodeToString
                 (RedditOauth.ClientId oauth ++ ":"
                  ++ RedditOauth.ClientSecret oauth)])].
Proof.
  intros now oauth out. subst out. rewrite TryAuthenticate_sent.
  split; [|split; [|repeat split]].
  - destruct (ShouldAuthenticate oauth);
      [destruct (http_NewRequest_err _ _)|];
      split; try discriminate; try tauto;
      intros [H1 H2]; discriminate.
  - destruct (ShouldAuthenticate oauth);
      [destruct (http_NewRequest_err _ _)|]; auto.
Qed.

(** X3. Neither [TryAuthenticate] nor [FetchSubredditPosts] ever changes
    the identity fields of the credential (client id, client secret, user
    name, password, user agent); a [nil] credential stays [nil]. *)
Theorem identity_fields_are_kept :
  forall (now_check now_auth : time.Time)
    (subreddit sort topPeriod search commentsUrlTemplate requestUrlTemplate : string)
    (showFlairs : bool) (oauth : RedditOauth.t),
    sameIdentity (auth_oauth (TryAuthenticate now_auth oauth)) oauth
    /\ ShouldAuthenticate (auth_oauth (TryAuthenticate now_auth oauth))
       = ShouldAuthenticate oauth
    /\ (exists oauth',
           fetch_oauth
             (FetchSubredditPosts now_check now_auth subreddit sort topPeriod
                search commentsUrlTemplate requestUrlTemplate showFlairs
                (Some oauth)) = Some oauth'
           /\ sameIdentity oauth' oauth)
    /\ fetch_oauth
         (FetchSubredditPosts now_check now_auth subreddit sort topPeriod
            search commentsUrlTemplate requestUrlTemplate showFlairs None)
       = None.
Proof.
  intros now_check now_auth subreddit sort topPeriod search
    commentsUrlTemplate requestUrlTemplate showFlairs oauth.
  assert (Hid : sameIdentity (auth_oauth (TryAuthenticate now_auth oauth)) oauth).
  { destruct (TryAuthenticate_oauth now_auth oauth) as [->|[tok [exp ->]]];
      unfold sameIdentity; simpl; auto. }
  split; [exact Hid|]. split; [now apply sameIdentity_ShouldAuthenticate|].
  split.
  - destruct (FetchSubredditPosts_oauth now_check now_auth subreddit sort
                topPeriod search commentsUrlTemplate requestUrlTemplate
                showFlairs (Some oauth)) as [H|[o [Ho H]]].
    + exists oauth. split; [exact H|]. unfold sameIdentity. auto.
    + injection Ho as <-. eexists. split; [exact H | exact Hid].
  - destruct (FetchSubredditPosts_oauth now_check now_auth subreddit sort
                topPeriod search commentsUrlTemplate requestUrlTemplate
                showFlairs None) as [H|[o [Ho H]]];
      [exact H | discriminate].
Qed.

(** X4. A call on a configured credential overwrites the token and the
    expiry without reading them: two credentials with the same identity
    fields get the same error, send the same request and, on success, end
    up equal, whatever token and expiry they held. *)
Theorem TryAuthenticate_overwrites_token_and_expiry :
  forall (now : time.Time) (a b : RedditOauth.t),
    sameIdentity a b ->
    ShouldAuthenticate a = true ->
    auth_err (TryAuthenticate now a) = auth_err (TryAuthenticate now b)
    /\ auth_sent (TryAuthenticate now a) = auth_sent (TryAuthenticate now b)
    /\ (auth_err (TryAuthenticate now a) = None ->
        auth_oauth (TryAuthenticate now a) = auth_oauth (TryAuthenticate now b)).
Proof.
  intros now a b Hab Ha.
  assert (Hb : ShouldAuthenticate b = true)
    by now rewrite <- (sameIdentity_ShouldAuthenticate a b Hab).
  rewrite (TryAuthenticate_configured now a Ha),
    (TryAuthenticate_configured now b Hb),
    (sameIdentity_tokenRequest a b Hab).
  destruct (http_NewRequest_err _ _); [repeat split; discriminate|].
  destruct (decodeJsonFromRequest_token _); [repeat split; discriminate|].
  destruct (_ =? ""); [repeat split; discriminate|].
  destruct (_ =? 0)%Z; [repeat split; discriminate|].
  simpl. repeat split. intros _. now apply sameIdentity_setToken.
Qed.

(** X5. After a successful exchange with a positive [expires_in] of at
    most 9223372036 seconds, [ShouldReauthenticate] is false at every time
    before the current time plus [expires_in] seconds, and true from then
    on. *)
Theorem reauthentication_is_due_from_the_expiry :
  forall (now : time.Time) (oauth : RedditOauth.t)
    (response : redditAccessTokenResponseJson.t),
    ShouldAuthenticate oauth = true ->
    http_NewRequest_err "POST" tokenEndpoint = None ->
    decodeJsonFromRequest_token (tokenRequest oauth) = inr response ->
    redditAccessTokenResponseJson.AccessToken response <> "" ->
    (0 < redditAccessTokenResponseJson.ExpiresIn response <= 9223372036)%Z ->
    (time.unixEpoch <= now)%Z ->
    forall t : time.Time,
      ShouldReauthenticate t (auth_oauth (TryAuthenticate now oauth))
      = (now + redditAccessTokenResponseJson.ExpiresIn response * time.Second
         <=? t)%Z.
Proof.
  intros now oauth response Hcfg Hnew Hdec Htok Hexp Hnow t.
  rewrite (TryAuthenticate_configured now oauth Hcfg), Hnew, Hdec.
  apply String.eqb_neq in Htok. rewrite Htok.
  destruct (Z.eqb_spec (redditAccessTokenResponseJson.ExpiresIn response) 0)
    as [H0|H0]; [lia|].
  cbn [auth_oauth]. unfold ShouldReauthenticate, setToken.
  cbn [RedditOauth.ExpiresAt].
  unfold time.IsZero, time.After, time.Add.
  rewrite seconds_exact by lia.
  unfold time.zero, time.unixEpoch, time.Second in *.
  destruct (Z.eqb_spec
              (now + redditAccessTokenResponseJson.ExpiresIn response
                     * 1000000000) 0); [lia|].
  rewrite Z.leb_antisym. reflexivity.
Qed.

(** X6. Once due, a reauthentication stays due: [ShouldReauthenticate]
    does not go back from true to false as the clock advances. *)
Theorem ShouldReauthenticate_stays_due :
  forall (t t' : time.Time) (r : RedditOauth.t),
    ShouldReauthenticate t r = true ->
    (t <= t')%Z ->
    ShouldReauthenticate t' r = true.
Proof.
  intros t t' r. unfold ShouldReauthenticate, time.IsZero, time.After.
  destruct (RedditOauth.ExpiresAt r =? time.zero)%Z; [discriminate|].
  rewrite !negb_true_iff, !Z.ltb_ge. lia.
Qed.

End Authenticator.

(** ** More on the fetch *)

Section Fetch.

Context {svc : Services}.

Variables now_check now_auth : time.Time.
Variables subreddit sort topPeriod search : string.
Variables commentsUrlTemplate requestUrlTemplate : string.
Variable showFlairs : bool.

Local Abbreviation fetch oauth :=
  (FetchSubredditPosts now_check now_auth subreddit sort topPeriod search
     commentsUrlTemplate requestUrlTemplate showFlairs oauth).

Local Abbreviation listing oauth :=
  (requestListing now_check now_auth subreddit sort topPeriod search
     requestUrlTemplate oauth).

Local Abbreviation requestUrlOn base :=
  (buildRequestUrl base subreddit sort topPeriod search requestUrlTemplate).

(** The first part of the fetch, from the state the selection of the host
    leaves. *)
Lemma requestListing_unfold (oauth : option RedditOauth.t) :
  let host := selectHost now_check now_auth oauth in
  let request :=
    listingRequest (useOauth oauth) (host_oauth host)
      (requestUrlOn (host_baseRequestUrl host)) in
  listing oauth =
  match host_err host with
  | Some err =>
      {| listing_result := inl err; listing_oauth := host_oauth host;
         listing_sent := host_sent host |}
  | None =>
      match http_NewRequest_err "GET" (requestUrlOn (host_baseRequestUrl host))
      with
      | Some text =>
          {| listing_result := inl (serviceError text);
             listing_oauth := host_oauth host;
             listing_sent := host_sent host |}
      | None =>
          {| listing_result :=
               match decodeJsonFromRequest_listing request with
               | inl text => inl (serviceError text)
               | inr responseJson => inr responseJson
               end;
             listing_oauth := host_oauth host;
             listing_sent := (host_sent host ++ [request])%list |}
      end
  end.
Proof.
  cbv zeta. unfold requestListing, http_NewRequest, listingRequest.
  destruct (host_err _); [reflexivity|].
  destruct (http_NewRequest_err _ _); reflexivity.
Qed.

(** The whole fetch, from its first part. *)
Lemma FetchSubredditPosts_unfold (oauth : option RedditOauth.t) :
  fetch oauth =
  {| fetch_posts :=
       match listing_result (listing oauth) with
       | inl _ => []
       | inr responseJson =>
           map (fun child =>
                  normalizePost commentsUrlTemplate subreddit showFlairs
                    (childJson.Data child))
             (filter kept (subredditResponseJson.Children responseJson))
       end;
     fetch_err :=
       match listing_result (listing oauth) with
       | inl err => Some err
       | inr responseJson =>
           match subredditResponseJson.Children responseJson with
           | [] => Some (errors_New "no posts found")
           | _ :: _ => None
           end
       end;
     fetch_oauth := listing_oauth (listing oauth);
     fetch_sent := listing_sent (listing oauth) |}.
Proof.
  unfold FetchSubredditPosts.
  destruct (listing_result _) as [err|responseJson]; [reflexivity|].
  destruct (subredditResponseJson.Children responseJson) as [|child children];
    [reflexivity|].
  cbn [List.length Nat.eqb]. now rewrite normalizeLoop_map_filter.
Qed.

(** The selection of the host when no reauthentication is due. *)
Lemma selectHost_idle (oauth : option RedditOauth.t) :
  (useOauth oauth = false
   \/ exists o, oauth = Some o /\ ShouldReauthenticate now_check o = false) ->
  selectHost now_check now_auth oauth
  = {| host_baseRequestUrl :=
         if useOauth oauth then "https://oauth.reddit.com"
         else "https://reddit.com";
       host_err := None; host_oauth := oauth; host_sent := [] |}.
Proof.
  unfold selectHost, useOauth.
  destruct oauth as [o|]; [|reflexivity].
  intros [H|[o' [Ho H]]].
  - now rewrite H.
  - injection Ho as <-. rewrite H. now destruct (negb _).
Qed.

(** The selection of the host when a reauthentication is due. *)
Lemma selectHost_refresh (o : RedditOauth.t) :
  RedditOauth.AccessToken o <> "" ->
  ShouldReauthenticate now_check o = true ->
  selectHost now_check now_auth (Some o)
  = {| host_baseRequestUrl := "https://oauth.reddit.com";
       host_err := auth_err (TryAuthenticate now_auth o);
       host_oauth := Some (auth_oauth (TryAuthenticate now_auth o));
       host_sent := auth_sent (TryAuthenticate now_auth o) |}.
Proof.
  intros Htok Hdue. apply String.eqb_neq in Htok.
  unfold selectHost. now rewrite Htok, Hdue.
Qed.

Lemma useOauth_token (o : RedditOauth.t) :
  RedditOauth.AccessToken o <> "" -> useOauth (Some o) = true.
Proof. intros H. apply String.eqb_neq in H. unfold useOauth. now rewrite H. Qed.

(** The headers of the request without and with a token. *)
Lemma listingRequest_public (oauth : option RedditOauth.t) (requestUrl : string) :
  listingRequest false oauth requestUrl
  = {| http.Method := "GET"; http.URL := requestUrl; http.Body := None;
       http.Headers := [("User-Agent", [browserUserAgent])] |}.
Proof. reflexivity. Qed.

Lemma listingRequest_authenticated (o : RedditOauth.t) (requestUrl : string) :
  listingRequest true (Some o) requestUrl
  = {| http.Method := "GET"; http.URL := requestUrl; http.Body := None;
       http.Headers :=
         [("Authorization", ["bearer " ++ RedditOauth.AccessToken o]);
          ("User-Agent", [userAgentOf o])] |}.
Proof.
  unfold listingRequest, setRequestHeaders, userAgentOf.
  destruct (RedditOauth.UserAgent o =? ""); reflexivity.
Qed.

(** X7. Without a token ([nil] credential, or an empty access token, even
    of a fully configured credential) a fetch never authenticates: the
    credential is left as it was, and the only request that may be sent is
    the [GET] to the public host, with the browser [User-Agent] and no
    [Authorization] header. *)
Theorem fetch_without_token_never_authenticates :
  forall oauth : option RedditOauth.t,
    useOauth oauth = false ->
    fetch_oauth (fetch oauth) = oauth
    /\ fetch_sent (fetch oauth)
       = match http_NewRequest_err "GET" (requestUrlOn "https://reddit.com") with
         | Some _ => []
         | None =>
             [{| http.Method := "GET";
                 http.URL := requestUrlOn "https://reddit.com";
                 http.Body := None;
                 http.Headers := [("User-Agent", [browserUserAgent])] |}]
         end.
Proof.
  intros oauth Huse.
  rewrite FetchSubredditPosts_unfold. cbn [fetch_oauth fetch_sent].
  pose proof (requestListing_unfold oauth) as Hl. cbv zeta in Hl.
  rewrite (selectHost_idle oauth (or_introl Huse)), Huse in Hl.
  cbn [host_err host_oauth host_sent host_baseRequestUrl] in Hl.
  rewrite Hl.
  destruct (http_NewRequest_err _ _); split; reflexivity.
Qed.

(** X8. When the token is due for renewal and [TryAuthenticate] fails, the
    fetch returns that error and no posts, sends no listing request (the
    only request on the wire is the one of [TryAuthenticate]), and leaves
    the credential as it was. *)
Theorem fetch_aborts_when_authentication_fails :
  forall (o : RedditOauth.t) (err : error),
    RedditOauth.AccessToken o <> "" ->
    ShouldReauthenticate now_check o = true ->
    auth_err (TryAuthenticate now_auth o) = Some err ->
    fetch_err (fetch (Some o)) = Some err
    /\ fetch_posts (fetch (Some o)) = []
    /\ fetch_oauth (fetch (Some o)) = Some o
    /\ fetch_sent (fetch (Some o)) = auth_sent (TryAuthenticate now_auth o)
    /\ Forall (fun request => http.Method request = "POST")
         (fetch_sent (fetch (Some o))).
Proof.
  intros o err Htok Hdue Herr.
  rewrite FetchSubredditPosts_unfold.
  cbn [fetch_err fetch_posts fetch_oauth fetch_sent].
  pose proof (requestListing_unfold (Some o)) as Hl. cbv zeta in Hl.
  rewrite (selectHost_refresh o Htok Hdue) in Hl.
  cbn [host_err host_oauth host_sent host_baseRequestUrl] in Hl.
  rewrite Herr in Hl. rewrite Hl.
  cbn [listing_result listing_oauth listing_sent].
  rewrite (TryAuthenticate_error_unchanged now_auth o err Herr).
  repeat split.
  apply Forall_forall. intros request Hin.
  now apply (TryAuthenticate_sent_POST now_auth o).
Qed.

(** X9. With a token that is not due for renewal (its expiry is after the
    current time, or is the zero value) a fetch does not authenticate: the
    credential is left as it was, and the only request that may be sent is
    the [GET] to the authenticated host, with the token as bearer and the
    user agent of the credential, or [glance/0.1 by <username>] without
    one. *)
Theorem fetch_keeps_a_valid_token :
  forall o : RedditOauth.t,
    RedditOauth.AccessToken o <> "" ->
    ShouldReauthenticate now_check o = false ->
    fetch_oauth (fetch (Some o)) = Some o
    /\ fetch_sent (fetch (Some o))
       = match http_NewRequest_err "GET"
                 (requestUrlOn "https://oauth.reddit.com") with
         | Some _ => []
         | None =>
             [{| http.Method := "GET";
                 http.URL := requestUrlOn "https://oauth.reddit.com";
                 http.Body := None;
                 http.Headers :=
                   [("Authorization", ["bearer " ++ RedditOauth.AccessToken o]);
                    ("User-Agent",
                     [if RedditOauth.UserAgent o =? ""
                      then "glance/0.1 by " ++ RedditOauth.Username o
                      else RedditOauth.UserAgent o])] |}]
         end.
Proof.
  intros o Htok Hdue.
  rewrite FetchSubredditPosts_unfold. cbn [fetch_oauth fetch_sent].
  pose proof (requestListing_unfold (Some o)) as Hl. cbv zeta in Hl.
  rewrite (selectHost_idle (Some o)) in Hl
    by (right; exists o; split; [reflexivity | assumption]).
  rewrite (useOauth_token o Htok) in Hl.
  cbn [host_err host_oauth host_sent host_baseRequestUrl] in Hl.
  rewrite listingRequest_authenticated in Hl. rewrite Hl.
  destruct (http_NewRequest_err _ _); split; reflexivity.
Qed.

(** X10. When the token is due for renewal and [TryAuthenticate] returns
    no error, the listing request carries the token of the credential as
    [TryAuthenticate] has left it, and this credential stays behind the
    pointer whatever becomes of the listing request. *)
Theorem fetch_uses_the_renewed_token :
  forall o : RedditOauth.t,
    RedditOauth.AccessToken o <> "" ->
    ShouldReauthenticate now_check o = true ->
    auth_err (TryAuthenticate now_auth o) = None ->
    let renewed := auth_oauth (TryAuthenticate now_auth o) in
    fetch_oauth (fetch (Some o)) = Some renewed
    /\ fetch_sent (fetch (Some o))
       = List.app (auth_sent (TryAuthenticate now_auth o))
           match http_NewRequest_err "GET"
                   (requestUrlOn "https://oauth.reddit.com") with
           | Some _ => []
           | None =>
               [{| http.Method := "GET";
                   http.URL := requestUrlOn "https://oauth.reddit.com";
                   http.Body := None;
                   http.Headers :=
                     [("Authorization",
                       ["bearer " ++ RedditOauth.AccessToken renewed]);
                      ("User-Agent",
                       [if RedditOauth.UserAgent renewed =? ""
                        then "glance/0.1 by " ++ RedditOauth.Username renewed
                        else RedditOauth.UserAgent renewed])] |}]
           end.
Proof.
  intros o Htok Hdue Hok renewed. subst renewed.
  rewrite FetchSubredditPosts_unfold. cbn [fetch_oauth fetch_sent].
  pose proof (requestListing_unfold (Some o)) as Hl. cbv zeta in Hl.
  rewrite (selectHost_refresh o Htok Hdue) in Hl.
  rewrite (useOauth_token o Htok) in Hl.
  cbn [host_err host_oauth host_sent host_baseRequestUrl] in Hl.
  rewrite Hok, listingRequest_authenticated in Hl. rewrite Hl.
  destruct (http_NewRequest_err _ _); split;
    cbn [listing_oauth listing_sent]; try reflexivity.
  now rewrite app_nil_r.
Qed.

(** X11. A token due for renewal on a credential that is not fully
    configured is not renewed and not reported: the fetch sends no token
    request, leaves the credential as it was, and the only request it may
    send is the [GET] to the authenticated host
    [https://oauth.reddit.com], with the expired token as bearer. *)
Theorem fetch_goes_on_with_an_expired_token :
  forall o : RedditOauth.t,
    RedditOauth.AccessToken o <> "" ->
    ShouldReauthenticate now_check o = true ->
    ShouldAuthenticate o = false ->
    fetch_oauth (fetch (Some o)) = Some o
    /\ fetch_sent (fetch (Some o))
       = match http_NewRequest_err "GET"
                 (requestUrlOn "https://oauth.reddit.com") with
         | Some _ => []
         | None =>
             [{| http.Method := "GET";
                 http.URL := requestUrlOn "https://oauth.reddit.com";
                 http.Body := None;
                 http.Headers :=
                   [("Authorization", ["bearer " ++ RedditOauth.AccessToken o]);
                    ("User-Agent",
                     [if RedditOauth.UserAgent o =? ""
                      then "glance/0.1 by " ++ RedditOauth.Username o
                      else RedditOauth.UserAgent o])] |}]
         end
    /\ Forall
         (fun request =>
            http.Method request = "GET"
            /\ http.URL request = requestUrlOn "https://oauth.reddit.com"
            /\ url.lookup (http.Headers request) "Authorization"
               = ["bearer " ++ RedditOauth.AccessToken o])
         (fetch_sent (fetch (Some o)))
    /\ (http_NewRequest_err "GET" (requestUrlOn "https://oauth.reddit.com")
        = None ->
        List.length (fetch_sent (fetch (Some o))) = 1).
Proof.
  intros o Htok Hdue Hcfg.
  rewrite FetchSubredditPosts_unfold. cbn [fetch_oauth fetch_sent].
  pose proof (requestListing_unfold (Some o)) as Hl. cbv zeta in Hl.
  rewrite (selectHost_refresh o Htok Hdue) in Hl.
  rewrite (useOauth_token o Htok) in Hl.
  rewrite (TryAuthenticate_unconfigured now_auth o Hcfg) in Hl.
  cbn [host_err host_oauth host_sent host_baseRequestUrl auth_err auth_oauth
         auth_sent] in Hl.
  rewrite listingRequest_authenticated in Hl. rewrite Hl.
  destruct (http_NewRequest_err _ _);
    cbn [listing_oauth listing_sent app]; repeat split;
    try discriminate; repeat constructor.
Qed.

(** X12. A fetch that returns an error returns no posts, and it returns no
    error exactly when the listing request has given a listing with at
    least one entry. *)
Theorem fetch_error_or_posts :
  forall oauth : option RedditOauth.t,
    (fetch_err (fetch oauth) <> None -> fetch_posts (fetch oauth) = [])
    /\ (fetch_err (fetch oauth) = None <->
        exists responseJson,
          listing_result (listing oauth) = inr responseJson
          /\ subredditResponseJson.Children responseJson <> []).
Proof.
  intros oauth. rewrite FetchSubredditPosts_unfold.
  cbn [fetch_err fetch_posts].
  destruct (listing_result (listing oauth)) as [err|responseJson].
  - split; [reflexivity|]. split; [discriminate|].
    intros [r [H _]]. discriminate.
  - destruct (subredditResponseJson.Children responseJson)
      as [|child children] eqn:Hc.
    + split; [reflexivity|]. split; [discriminate|].
      intros [r [H Hne]]. injection H as <-. congruence.
    + split; [congruence|]. split; [|reflexivity].
      intros _. exists responseJson. split; [reflexivity|]. congruence.
Qed.

Lemma filter_kept_none (children : list childJson.t) :
  (forall child,
      In child children ->
      postJson.Stickied (childJson.Data child) = true
      \/ postJson.Pinned (childJson.Data child) = true) ->
  filter kept children = [].
Proof.
  induction children as [|child children IH]; intros Hall; [reflexivity|].
  simpl. unfold kept at 1.
  assert (Hc : postJson.Stickied (childJson.Data child)
               || postJson.Pinned (childJson.Data child) = true).
  { apply orb_true_iff. apply Hall. now left. }
  rewrite Hc. simpl. apply IH. intros c Hin. apply Hall. now right.
Qed.

(** X13. A listing that has entries, all of them stickied or pinned, is
    not an error: the fetch succeeds with no posts. *)
Theorem fetch_of_stickied_entries_only :
  forall (oauth : option RedditOauth.t)
    (responseJson : subredditResponseJson.t),
    listing_result (listing oauth) = inr responseJson ->
    subredditResponseJson.Children responseJson <> [] ->
    (forall child,
        In child (subredditResponseJson.Children responseJson) ->
        postJson.Stickied (childJson.Data child) = true
        \/ postJson.Pinned (childJson.Data child) = true) ->
    fetch_err (fetch oauth) = None /\ fetch_posts (fetch oauth) = [].
Proof.
  intros oauth responseJson Hl Hne Hall.
  rewrite FetchSubredditPosts_unfold. cbn [fetch_err fetch_posts].
  rewrite Hl. split.
  - destruct (subredditResponseJson.Children responseJson); congruence.
  - now rewrite (filter_kept_none _ Hall).
Qed.

(** X14. A fetch sends at most two requests: the token request, if any,
    comes first, and the listing request, if any, comes last. *)
Theorem fetch_sends_token_request_then_listing_request :
  forall oauth : option RedditOauth.t,
    let methods := map http.Method (fetch_sent (fetch oauth)) in
    methods = [] \/ methods = ["GET"] \/ methods = ["POST"]
    \/ methods = ["POST"; "GET"].
Proof.
  intros oauth methods. subst methods.
  rewrite FetchSubredditPosts_unfold. cbn [fetch_sent].
  pose proof (requestListing_unfold oauth) as Hl. cbv zeta in Hl.
  assert (Hhost : host_sent (selectHost now_check now_auth oauth) = []
                  \/ exists request,
                      host_sent (selectHost now_check now_auth oauth) = [request]
                      /\ http.Method request = "POST").
  { unfold selectHost. destruct oauth as [o|]; [|now left].
    destruct (negb _); [|now left].
    destruct (ShouldReauthenticate _ _); [|now left].
    cbn [host_sent]. rewrite TryAuthenticate_sent.
    destruct (ShouldAuthenticate o); [|now left].
    destruct (http_NewRequest_err "POST" tokenEndpoint); [now left|].
    right. eexists. split; reflexivity. }
  assert (Hget : forall use o' u, http.Method (listingRequest use o' u) = "GET").
  { intros use o' u. unfold listingRequest.
    now rewrite (proj2 (setRequestHeaders_URL _ _ _)). }
  rewrite Hl.
  destruct (host_err _); [|destruct (http_NewRequest_err "GET" _)];
    cbn [listing_sent];
    destruct Hhost as [->|[request [-> Hpost]]];
    rewrite ?map_app; cbn [map app]; rewrite ?Hget, ?Hpost; auto.
Qed.

End Fetch.

(** ** More on the posts *)

Section Posts.

Context {svc : Services}.

Variables now_check now_auth : time.Time.
Variables subreddit sort topPeriod search : string.
Variables commentsUrlTemplate requestUrlTemplate : string.
Variable showFlairs : bool.
Variable oauth : option RedditOauth.t.

Local Abbreviation posts :=
  (fetch_posts
     (FetchSubredditPosts now_check now_auth subreddit sort topPeriod search
        commentsUrlTemplate requestUrlTemplate showFlairs oauth)).

Local Abbreviation listed :=
  (listing_result
     (requestListing now_check now_auth subreddit sort topPeriod search
        requestUrlTemplate oauth)).

(** The fields of a post that only the composite literal and the flair
    assign. *)
Lemma normalizePost_copied (post : postJson.t) :
  let forumPost := normalizePost commentsUrlTemplate subreddit showFlairs post in
  ForumPost.Title forumPost = html_UnescapeString (postJson.Title post)
  /\ ForumPost.DiscussionUrl forumPost
     = (if commentsUrlTemplate =? "" then
          "https://www.reddit.com" ++ postJson.Permalink post
        else
          templateRedditCommentsURL commentsUrlTemplate subreddit
            (postJson.Id post) (postJson.Permalink post))
  /\ ForumPost.CommentCount forumPost = postJson.CommentsCount post
  /\ ForumPost.Score forumPost = postJson.Upvotes post
  /\ ForumPost.TimePosted forumPost
     = time.Unix (int64_of_float64 (postJson.Time post))
  /\ ForumPost.Tags forumPost
     = if showFlairs && negb (postJson.Flair post =? "")
       then [postJson.Flair post] else [].
Proof.
  cbv zeta. unfold normalizePost.
  destruct (negb (postJson.Thumbnail post =? "") && _ && _ && _);
    destruct (negb (postJson.IsSelf post));
    destruct (showFlairs && _);
    destruct (postJson.ParentList post);
    destruct (commentsUrlTemplate =? ""); repeat split.
Qed.

(** X15. A post is marked as a crosspost exactly when its entry has a
    crosspost parent; the domain of a post that is not a crosspost is the
    domain of its entry. *)
Theorem crosspost_flag_iff_parents :
  forall responseJson : subredditResponseJson.t,
    listed = inr responseJson ->
    Forall2
      (fun child forumPost =>
         (ForumPost.IsCrosspost forumPost = true <->
          postJson.ParentList (childJson.Data child) <> [])
         /\ (postJson.ParentList (childJson.Data child) = [] ->
             ForumPost.TargetUrlDomain forumPost
             = postJson.Domain (childJson.Data child)))
      (filter kept (subredditResponseJson.Children responseJson))
      posts.
Proof.
  intros responseJson.
  apply (FetchSubredditPosts_Forall2 commentsUrlTemplate subreddit showFlairs
           now_check now_auth sort topPeriod search requestUrlTemplate oauth).
  intros child.
  destruct (postJson.ParentList (childJson.Data child))
    as [|parent0 rest] eqn:Hp.
  - unfold normalizePost. rewrite Hp.
    destruct (negb (postJson.Thumbnail _ =? "") && _ && _ && _);
      destruct (negb (postJson.IsSelf _));
      destruct (showFlairs && _); simpl;
      (split; [split; [discriminate | congruence] | reflexivity]).
  - destruct (normalizePost_crosspost commentsUrlTemplate subreddit showFlairs
                _ _ _ Hp) as [Hc _].
    split; [|discriminate]. split; [discriminate | intros _; exact Hc].
Qed.

(** X16. A post has at most one tag: the flair of its entry when flairs
    are shown and the flair is not empty, and none otherwise. *)
Theorem tags_are_the_flair :
  forall responseJson : subredditResponseJson.t,
    listed = inr responseJson ->
    Forall2
      (fun child forumPost =>
         (showFlairs = true ->
          postJson.Flair (childJson.Data child) <> "" ->
          ForumPost.Tags forumPost = [postJson.Flair (childJson.Data child)])
         /\ (showFlairs = false \/ postJson.Flair (childJson.Data child) = "" ->
             ForumPost.Tags forumPost = []))
      (filter kept (subredditResponseJson.Children responseJson))
      posts.
Proof.
  intros responseJson.
  apply (FetchSubredditPosts_Forall2 commentsUrlTemplate subreddit showFlairs
           now_check now_auth sort topPeriod search requestUrlTemplate oauth).
  intros child.
  destruct (normalizePost_copied (childJson.Data child))
    as [_ [_ [_ [_ [_ Htags]]]]].
  rewrite Htags. split.
  - intros -> Hf. apply String.eqb_neq in Hf. now rewrite Hf.
  - intros [H|H]; rewrite H; [reflexivity|]. now rewrite andb_false_r.
Qed.

(** X17. The discussion URL of a post is that of its own entry, also for
    a crosspost: without a comments URL template it is
    [https://www.reddit.com] followed by the permalink; with one it is the
    template in which [{SUBREDDIT}], [{POST-ID}] and [{POST-PATH}] have been
    replaced, in this order, by the subreddit of the fetch, the id of the
    entry and its permalink without the leading slashes, which on a
    well-formed template and for a subreddit and an id without opening
    braces is every placeholder replaced by its value.  The title is the
    unescaped title of the entry, the score and the comment count are
    those of the entry, and the time is the instant [created] seconds
    after the Unix epoch, the seconds from the zero instant being added
    in [int64]. *)
Theorem discussion_url_and_copied_fields :
  forall responseJson : subredditResponseJson.t,
    listed = inr responseJson ->
    Forall2
      (fun child forumPost =>
         let post := childJson.Data child in
         ForumPost.DiscussionUrl forumPost
         = (if commentsUrlTemplate =? "" then
              "https://www.reddit.com" ++ postJson.Permalink post
            else
              strings.ReplaceAll
                (strings.ReplaceAll
                   (strings.ReplaceAll commentsUrlTemplate "{SUBREDDIT}"
                      subreddit)
                   "{POST-ID}" (postJson.Id post))
                "{POST-PATH}" (strings.TrimLeft (postJson.Permalink post) "/"))
         /\ (forall gs : list segment,
                commentsUrlTemplate = render gs ->
                commentsUrlTemplate <> "" ->
                wellFormed gs = true ->
                braceFree subreddit = true ->
                braceFree (postJson.Id post) = true ->
                ForumPost.DiscussionUrl forumPost
                = substitute subreddit (postJson.Id post)
                    (postJson.Permalink post) gs)
         /\ ForumPost.Title forumPost = html_UnescapeString (postJson.Title post)
         /\ ForumPost.Score forumPost = postJson.Upvotes post
         /\ ForumPost.CommentCount forumPost = postJson.CommentsCount post
         /\ ForumPost.TimePosted forumPost
            = (time.int64 (int64_of_float64 (postJson.Time post) + 62135596800)
               * 1000000000)%Z)
      (filter kept (subredditResponseJson.Children responseJson))
      posts.
Proof.
  intros responseJson.
  apply (FetchSubredditPosts_Forall2 commentsUrlTemplate subreddit showFlairs
           now_check now_auth sort topPeriod search requestUrlTemplate oauth).
  intros child. cbv zeta.
  destruct (normalizePost_copied (childJson.Data child))
    as [H1 [H2 [H3 [H4 [H5 _]]]]].
  unfold templateRedditCommentsURL in H2.
  split; [exact H2|]. split; [|auto].
  intros gs Hgs Hne Hwf Hsub Hid. rewrite H2.
  apply String.eqb_neq in Hne. rewrite Hne, Hgs.
  now apply three_passes_substitute.
Qed.

End Posts.

(** ** More on the request URL *)

Lemma braceFree_nonempty_template (pre post : string) :
  (pre ++ "{REQUEST-URL}" ++ post =? "") = false.
Proof. now destruct pre. Qed.

(** X18. With a request URL template that holds the placeholder once,
    between texts without an opening brace, the final URL is the text
    before, the constructed URL and the text after; the constructed URL
    itself is not scanned. *)
Theorem request_url_template_is_filled_in :
  forall (baseRequestUrl subreddit sort topPeriod search pre post : string),
    braceFree pre = true ->
    braceFree post = true ->
    buildRequestUrl baseRequestUrl subreddit sort topPeriod search
      (pre ++ "{REQUEST-URL}" ++ post)
    = pre
      ++ buildRequestUrl baseRequestUrl subreddit sort topPeriod search ""
      ++ post.
Proof.
  intros baseRequestUrl subreddit sort topPeriod search pre post Hpre Hpost.
  unfold buildRequestUrl.
  rewrite braceFree_nonempty_template.
  cbn [negb String.eqb].
  rewrite ReplaceAll_braceFree_prefix by assumption.
  rewrite ReplaceAll_here.
  now rewrite ReplaceAll_braceFree by assumption.
Qed.

(** X19. A request URL template without an opening brace, and so without
    the placeholder, is the final URL as it is: the constructed URL is
    dropped. *)
Theorem request_url_template_without_placeholder :
  forall (baseRequestUrl subreddit sort topPeriod search requestUrlTemplate
            : string),
    requestUrlTemplate <> "" ->
    braceFree requestUrlTemplate = true ->
    buildRequestUrl baseRequestUrl subreddit sort topPeriod search
      requestUrlTemplate
    = requestUrlTemplate.
Proof.
  intros baseRequestUrl subreddit sort topPeriod search requestUrlTemplate
    Hne Hfree.
  unfold buildRequestUrl. apply String.eqb_neq in Hne. rewrite Hne.
  cbn [negb]. now apply ReplaceAll_braceFree.
Qed.

(** ** Runs for the further properties *)

Lemma TryAuthenticate_overwrites_token_and_expiry_witness :
  sameIdentity Sample.credential (Sample.authenticated Sample.now)
  /\ ShouldAuthenticate Sample.credential = true
  /\ auth_oauth
       (TryAuthenticate
          (svc := Sample.services (inr (Sample.token "tok" 3600))
                    (inr Sample.listing))
          Sample.now Sample.credential)
     = auth_oauth
         (TryAuthenticate
            (svc := Sample.services (inr (Sample.token "tok" 3600))
                      (inr Sample.listing))
            Sample.now (Sample.authenticated Sample.now)).
Proof.
  assert (Hid : sameIdentity Sample.credential (Sample.authenticated Sample.now))
    by (repeat split).
  split; [exact Hid|]. split; [reflexivity|].
  apply (TryAuthenticate_overwrites_token_and_expiry
           (svc := Sample.services (inr (Sample.token "tok" 3600))
                     (inr Sample.listing))
           Sample.now Sample.credential (Sample.authenticated Sample.now)
           Hid eq_refl).
  reflexivity.
Defined.

Lemma reauthentication_is_due_from_the_expiry_witness :
  ShouldAuthenticate Sample.credential = true
  /\ (0 < 3600 <= 9223372036)%Z
  /\ (time.unixEpoch <= Sample.now)%Z
  /\ ShouldReauthenticate (Sample.now + 3599 * time.Second)%Z
       (auth_oauth
          (TryAuthenticate
             (svc := Sample.services (inr (Sample.token "tok" 3600))
                       (inr Sample.listing))
             Sample.now Sample.credential))
     = false.
Proof.
  assert (Hnow : (time.unixEpoch <= Sample.now)%Z)
    by (vm_compute; discriminate).
  split; [reflexivity|]. split; [lia|]. split; [exact Hnow|].
  rewrite (reauthentication_is_due_from_the_expiry
             (svc := Sample.services (inr (Sample.token "tok" 3600))
                       (inr Sample.listing))
             Sample.now Sample.credential (Sample.token "tok" 3600)
             eq_refl eq_refl eq_refl ltac:(discriminate) ltac:(simpl; lia)
             Hnow).
  reflexivity.
Defined.

Lemma ShouldReauthenticate_stays_due_witness :
  ShouldReauthenticate Sample.now (Sample.authenticated Sample.now) = true
  /\ (Sample.now <= Sample.now + 1)%Z
  /\ ShouldReauthenticate (Sample.now + 1)%Z (Sample.authenticated Sample.now)
     = true.
Proof.
  split; [reflexivity|]. split; [lia|].
  apply (ShouldReauthenticate_stays_due Sample.now (Sample.now + 1)%Z
           (Sample.authenticated Sample.now) eq_refl).
  lia.
Defined.

(** A configured credential that has no token yet is not authenticated by
    the fetch. *)
Lemma fetch_without_token_never_authenticates_witness :
  useOauth (Some Sample.credential) = false
  /\ fetch_oauth
       (FetchSubredditPosts
          (svc := Sample.services (inr (Sample.token "tok" 3600))
                    (inr Sample.listing))
          Sample.now Sample.now "golang" "hot" "day" "" "" "" true
          (Some Sample.credential))
     = Some Sample.credential.
Proof.
  split; [reflexivity|].
  apply (fetch_without_token_never_authenticates
           (svc := Sample.services (inr (Sample.token "tok" 3600))
                     (inr Sample.listing))
           Sample.now Sample.now "golang" "hot" "day" "" "" "" true
           (Some Sample.credential) eq_refl).
Defined.

Lemma fetch_aborts_when_authentication_fails_witness :
  RedditOauth.AccessToken (Sample.authenticated Sample.now) <> ""
  /\ ShouldReauthenticate Sample.now (Sample.authenticated Sample.now) = true
  /\ auth_err
       (TryAuthenticate
          (svc := Sample.services (inl "timeout") (inr Sample.listing))
          Sample.now (Sample.authenticated Sample.now))
     = Some (serviceError "timeout")
  /\ fetch_err
       (FetchSubredditPosts
          (svc := Sample.services (inl "timeout") (inr Sample.listing))
          Sample.now Sample.now "golang" "hot" "day" "" "" "" true
          (Some (Sample.authenticated Sample.now)))
     = Some (serviceError "timeout").
Proof.
  assert (Htok : RedditOauth.AccessToken (Sample.authenticated Sample.now) <> "")
    by discriminate.
  split; [exact Htok|]. split; [reflexivity|]. split; [reflexivity|].
  apply (fetch_aborts_when_authentication_fails
           (svc := Sample.services (inl "timeout") (inr Sample.listing))
           Sample.now Sample.now "golang" "hot" "day" "" "" "" true
           (Sample.authenticated Sample.now) (serviceError "timeout")
           Htok eq_refl eq_refl).
Defined.

Lemma fetch_keeps_a_valid_token_witness :
  RedditOauth.AccessToken (Sample.authenticated (Sample.now + 1)%Z) <> ""
  /\ ShouldReauthenticate Sample.now (Sample.authenticated (Sample.now + 1)%Z)
     = false
  /\ fetch_oauth
       (FetchSubredditPosts
          (svc := Sample.services (inr (Sample.token "tok" 3600))
                    (inr Sample.listing))
          Sample.now Sample.now "golang" "hot" "day" "" "" "" true
          (Some (Sample.authenticated (Sample.now + 1)%Z)))
     = Some (Sample.authenticated (Sample.now + 1)%Z).
Proof.
  assert (Htok : RedditOauth.AccessToken
                   (Sample.authenticated (Sample.now + 1)%Z) <> "")
    by discriminate.
  split; [exact Htok|]. split; [reflexivity|].
  apply (fetch_keeps_a_valid_token
           (svc := Sample.services (inr (Sample.token "tok" 3600))
                     (inr Sample.listing))
           Sample.now Sample.now "golang" "hot" "day" "" "" "" true
           (Sample.authenticated (Sample.now + 1)%Z) Htok eq_refl).
Defined.

Lemma fetch_uses_the_renewed_token_witness :
  RedditOauth.AccessToken (Sample.authenticated Sample.now) <> ""
  /\ ShouldReauthenticate Sample.now (Sample.authenticated Sample.now) = true
  /\ auth_err
       (TryAuthenticate
          (svc := Sample.services (inr (Sample.token "tok" 3600))
                    (inr Sample.listing))
          Sample.now (Sample.authenticated Sample.now))
     = None
  /\ fetch_oauth
       (FetchSubredditPosts
          (svc := Sample.services (inr (Sample.token "tok" 3600))
                    (inr Sample.listing))
          Sample.now Sample.now "golang" "hot" "day" "" "" "" true
          (Some (Sample.authenticated Sample.now)))
     = Some
         (auth_oauth
            (TryAuthenticate
               (svc := Sample.services (inr (Sample.token "tok" 3600))
                         (inr Sample.listing))
               Sample.now (Sample.authenticated Sample.now))).
Proof.
  assert (Htok : RedditOauth.AccessToken (Sample.authenticated Sample.now) <> "")
    by discriminate.
  split; [exact Htok|]. split; [reflexivity|]. split; [reflexivity|].
  apply (fetch_uses_the_renewed_token
           (svc := Sample.services (inr (Sample.token "tok" 3600))
                     (inr Sample.listing))
           Sample.now Sample.now "golang" "hot" "day" "" "" "" true
           (Sample.authenticated Sample.now) Htok eq_refl eq_refl).
Defined.

(** A credential whose password has been removed after it got a token. *)
Lemma fetch_goes_on_with_an_expired_token_witness :
  let o :=
    setToken Sample.incomplete "old-token" Sample.now in
  RedditOauth.AccessToken o <> ""
  /\ ShouldReauthenticate Sample.now o = true
  /\ ShouldAuthenticate o = false
  /\ fetch_sent
       (FetchSubredditPosts
          (svc := Sample.services (inr (Sample.token "tok" 3600))
                    (inr Sample.listing))
          Sample.now Sample.now "golang" "hot" "day" "" "" "" true (Some o))
     = [{| http.Method := "GET";
           http.URL := "https://oauth.reddit.com/r/golang/hot.json?";
           http.Body := None;
           http.Headers :=
             [("Authorization", ["bearer old-token"]);
              ("User-Agent", ["glance/0.1 by alice"])] |}].
Proof.
  cbv zeta.
  assert (Htok : RedditOauth.AccessToken
                   (setToken Sample.incomplete "old-token" Sample.now) <> "")
    by discriminate.
  split; [exact Htok|]. split; [reflexivity|]. split; [reflexivity|].
  exact (proj1 (proj2
           (fetch_goes_on_with_an_expired_token
              (svc := Sample.services (inr (Sample.token "tok" 3600))
                        (inr Sample.listing))
              Sample.now Sample.now "golang" "hot" "day" "" "" "" true
              (setToken Sample.incomplete "old-token" Sample.now)
              Htok eq_refl eq_refl))).
Defined.

Lemma fetch_of_stickied_entries_only_witness :
  let stickied :=
    {| subredditResponseJson.Children :=
         [Sample.post "a1" "Rules" "" "self" true true false [];
          Sample.post "d4" "Pinned" "http://y" "" false false true []] |} in
  listing_result
    (requestListing
       (svc := Sample.services (inr (Sample.token "tok" 3600)) (inr stickied))
       Sample.now Sample.now "golang" "hot" "day" "" "" None)
  = inr stickied
  /\ subredditResponseJson.Children stickied <> []
  /\ fetch_err
       (FetchSubredditPosts
          (svc := Sample.services (inr (Sample.token "tok" 3600))
                    (inr stickied))
          Sample.now Sample.now "golang" "hot" "day" "" "" "" true None)
     = None.
Proof.
  cbv zeta. split; [reflexivity|]. split; [discriminate|].
  apply (fetch_of_stickied_entries_only
           (svc := Sample.services (inr (Sample.token "tok" 3600))
                     (inr {| subredditResponseJson.Children :=
                               [Sample.post "a1" "Rules" "" "self" true true
                                  false [];
                                Sample.post "d4" "Pinned" "http://y" "" false
                                  false true []] |}))
           Sample.now Sample.now "golang" "hot" "day" "" "" "" true None
           _ eq_refl).
  - discriminate.
  - intros child [<-|[<-|[]]]; [left | right]; reflexivity.
Defined.

Lemma crosspost_flag_iff_parents_witness :
  listing_result
    (requestListing
       (svc := Sample.services (inr (Sample.token "tok" 3600))
                 (inr Sample.listing))
       Sample.now Sample.now "golang" "hot" "day" "" "" None)
  = inr Sample.listing
  /\ Forall2
       (fun child forumPost =>
          ForumPost.IsCrosspost forumPost = true <->
          postJson.ParentList (childJson.Data child) <> [])
       (filter kept (subredditResponseJson.Children Sample.listing))
       (fetch_posts
          (FetchSubredditPosts
             (svc := Sample.services (inr (Sample.token "tok" 3600))
                       (inr Sample.listing))
             Sample.now Sample.now "golang" "hot" "day" "" "" "" true None)).
Proof.
  split; [reflexivity|].
  eapply Forall2_impl;
    [|apply (crosspost_flag_iff_parents
               (svc := Sample.services (inr (Sample.token "tok" 3600))
                         (inr Sample.listing))
               Sample.now Sample.now "golang" "hot" "day" "" "" "" true None
               Sample.listing eq_refl)].
  intros child forumPost H. exact (proj1 H).
Defined.

Lemma tags_are_the_flair_witness :
  listing_result
    (requestListing
       (svc := Sample.services (inr (Sample.token "tok" 3600))
                 (inr Sample.listing))
       Sample.now Sample.now "golang" "hot" "day" "" "" None)
  = inr Sample.listing
  /\ Forall2
       (fun child forumPost =>
          postJson.Flair (childJson.Data child) <> "" ->
          ForumPost.Tags forumPost = [postJson.Flair (childJson.Data child)])
       (filter kept (subredditResponseJson.Children Sample.listing))
       (fetch_posts
          (FetchSubredditPosts
             (svc := Sample.services (inr (Sample.token "tok" 3600))
                       (inr Sample.listing))
             Sample.now Sample.now "golang" "hot" "day" "" "" "" true None)).
Proof.
  split; [reflexivity|].
  eapply Forall2_impl;
    [|apply (tags_are_the_flair
               (svc := Sample.services (inr (Sample.token "tok" 3600))
                         (inr Sample.listing))
               Sample.now Sample.now "golang" "hot" "day" "" "" "" true None
               Sample.listing eq_refl)].
  intros child forumPost H. exact (proj1 H eq_refl).
Defined.

(** The first post of the sample listing, with a template. *)
Lemma discussion_url_and_copied_fields_witness :
  listing_result
    (requestListing
       (svc := Sample.services (inr (Sample.token "tok" 3600))
                 (inr Sample.listing))
       Sample.now Sample.now "golang" "hot" "day" "" "" None)
  = inr Sample.listing
  /\ exists forumPost,
      nth_error
        (fetch_posts
           (FetchSubredditPosts
              (svc := Sample.services (inr (Sample.token "tok" 3600))
                        (inr Sample.listing))
              Sample.now Sample.now "golang" "hot" "day" ""
              "https://old.reddit.com/r/{SUBREDDIT}/comments/{POST-ID}/" ""
              true None))
        0
      = Some forumPost
      /\ ForumPost.DiscussionUrl forumPost
         = "https://old.reddit.com/r/golang/comments/b2/"
      /\ ForumPost.TimePosted forumPost = 63839664000000000000%Z.
Proof.
  split; [reflexivity|].
  eexists. split; [reflexivity|].
  pose proof
    (Forall2_nth_error _ _ _
       (discussion_url_and_copied_fields
          (svc := Sample.services (inr (Sample.token "tok" 3600))
                    (inr Sample.listing))
          Sample.now Sample.now "golang" "hot" "day" ""
          "https://old.reddit.com/r/{SUBREDDIT}/comments/{POST-ID}/" ""
          true None Sample.listing eq_refl)
       0 _ _ eq_refl eq_refl)
    as [_ [Hs [_ [_ [_ Ht]]]]].
  split; [|exact Ht].
  exact (Hs [Literal "https://old.reddit.com/r/"; SUBREDDIT;
             Literal "/comments/"; POST_ID; Literal "/"]
           eq_refl ltac:(discriminate) eq_refl eq_refl eq_refl).
Defined.

Lemma request_url_template_is_filled_in_witness :
  braceFree "https://proxy.example/?url=" = true
  /\ braceFree "&raw=1" = true
  /\ buildRequestUrl "https://reddit.com" "golang" "top" "week" ""
       "https://proxy.example/?url={REQUEST-URL}&raw=1"
     = "https://proxy.example/?url=https://reddit.com/r/golang/top.json?t=week&raw=1".
Proof.
  split; [reflexivity|]. split; [reflexivity|].
  apply (request_url_template_is_filled_in "https://reddit.com" "golang" "top"
           "week" "" "https://proxy.example/?url=" "&raw=1" eq_refl eq_refl).
Defined.

Lemma request_url_template_without_placeholder_witness :
  "https://mirror.example/feed.json" <> ""
  /\ braceFree "https://mirror.example/feed.json" = true
  /\ buildRequestUrl "https://reddit.com" "golang" "top" "week" "rust"
       "https://mirror.example/feed.json"
     = "https://mirror.example/feed.json".
Proof.
  assert (Hne : "https://mirror.example/feed.json" <> "") by discriminate.
  split; [exact Hne|]. split; [reflexivity|].
  apply (request_url_template_without_placeholder "https://reddit.com" "golang"
           "top" "week" "rust" "https://mirror.example/feed.json" Hne eq_refl).
Defined.
